(** * cosmic-cli: the command runner, the step commands and the pipeline

    A shallow embedding of [src/cosmic/cli.py].  Every operation of the
    tool is a call of an external program; the embedding keeps the
    program text (command strings, control flow, exception handlers) and
    makes the outside world a parameter: an environment [Env] answers
    each process execution and each file write, and a run of a function
    yields its result (a value or a raised exception), the world it
    leaves, and the list of events it performed, in order.

    A function decorated with [@cli.command()] is modelled by the
    function: a call of it, as [setup_all] makes through its step list,
    enters the command (an [Invoke] event), runs the body, and lets an
    exception the body raises reach the caller.  What the [click]
    library itself does around a command is outside [cli.py] and is not
    modelled. *)

From Stdlib Require Import String Ascii List ZArith Bool.
Import ListNotations.
Set Warnings "-register-all".
Local Open Scope list_scope.
Local Open Scope string_scope.

(** ** Python strings *)

Module Py.

(** The double quote and the line feed, which string literals here do not
    spell. *)
Definition dq : string := String (ascii_of_nat 34) EmptyString.
Definition nl : string := String (ascii_of_nat 10) EmptyString.

(** [str.isspace] on the ASCII range: tab, line feed, vertical tab, form
    feed, carriage return, the four separators 0x1c-0x1f and the space.
    Strings are byte strings here, so the non-ASCII blanks of Unicode are
    not recognised. *)
Definition isspace (c : ascii) : bool :=
  let n := nat_of_ascii c in
  (((9 <=? n) && (n <=? 13)) || ((28 <=? n) && (n <=? 32)))%nat.

Definition is_empty (s : string) : bool :=
  match s with EmptyString => true | String _ _ => false end.

(** [s.split()]: the maximal runs of non-blank characters. *)
Fixpoint split_from (cur s : string) : list string :=
  match s with
  | EmptyString => if is_empty cur then [] else [cur]
  | String c s' =>
      if isspace c
      then (if is_empty cur then split_from EmptyString s'
            else cur :: split_from EmptyString s')
      else split_from (cur ++ String c EmptyString) s'
  end.

Definition split (s : string) : list string := split_from EmptyString s.

(** [s.split(sep)] for a one-character separator: empty fields are kept,
    and the empty string gives one empty field. *)
Fixpoint split_on (sep : ascii) (s : string) : list string :=
  match s with
  | EmptyString => [EmptyString]
  | String c s' =>
      if Ascii.eqb c sep then EmptyString :: split_on sep s'
      else match split_on sep s' with
           | h :: t => String c h :: t
           | [] => [String c EmptyString]
           end
  end.

Fixpoint lstrip (s : string) : string :=
  match s with
  | EmptyString => EmptyString
  | String c s' => if isspace c then lstrip s' else s
  end.

Fixpoint rstrip (s : string) : string :=
  match s with
  | EmptyString => EmptyString
  | String c s' =>
      let r := rstrip s' in
      if isspace c && is_empty r then EmptyString else String c r
  end.

(** [s.strip()]. *)
Definition strip (s : string) : string := rstrip (lstrip s).

(** [sub in s] on strings: [sub] occurs in [s] as a substring. *)
Definition contains (sub s : string) : bool :=
  match String.index 0 sub s with Some _ => true | None => false end.

(** What [json.loads] returns: the Python objects a JSON document
    denotes.  Of a float only its truth value is kept. *)
Inductive value : Type :=
| VNone
| VBool (b : bool)
| VInt (z : Z)
| VFloat (nonzero : bool)
| VStr (s : string)
| VList (items : list value)
| VDict (items : list (string * value)).

(** Truth value of an object, as [if] and [and] test it. *)
Definition truthy (v : value) : bool :=
  match v with
  | VNone => false
  | VBool b => b
  | VInt z => negb (z =? 0)%Z
  | VFloat nz => nz
  | VStr s => negb (is_empty s)
  | VList l => match l with [] => false | _ => true end
  | VDict d => match d with [] => false | _ => true end
  end.

Fixpoint lookup (k : string) (d : list (string * value)) : option value :=
  match d with
  | [] => None
  | (k', v) :: d' => if String.eqb k k' then Some v else lookup k d'
  end.

(** A subscript: an integer or a string. *)
Inductive key : Type :=
| KInt (i : Z)
| KStr (s : string).

(** [v[k]]: the item, or the class of the exception raised
    ([IndexError], [KeyError], [TypeError]).  A dictionary read from
    JSON has string keys only. *)
Definition getitem (v : value) (k : key) : value + string :=
  match v, k with
  | VList l, KInt i =>
      let n := Z.of_nat (List.length l) in
      let j := if (i <? 0)%Z then (i + n)%Z else i in
      if ((0 <=? j) && (j <? n))%Z
      then match nth_error l (Z.to_nat j) with
           | Some x => inl x
           | None => inr "IndexError"
           end
      else inr "IndexError"
  | VList _, KStr _ => inr "TypeError"
  | VDict d, KStr s =>
      match lookup s d with
      | Some x => inl x
      | None => inr "KeyError"
      end
  | VDict _, KInt _ => inr "KeyError"
  | VStr s, KInt i =>
      let n := Z.of_nat (String.length s) in
      let j := if (i <? 0)%Z then (i + n)%Z else i in
      if ((0 <=? j) && (j <? n))%Z
      then match String.get (Z.to_nat j) s with
           | Some c => inl (VStr (String c EmptyString))
           | None => inr "IndexError"
           end
      else inr "IndexError"
  | _, _ => inr "TypeError"
  end.

End Py.

(** ** Exceptions, processes and events *)

(** The exceptions the program can see.  [Abort] is [click.Abort];
    [PyError] stands for any other subclass of [Exception], by class name
    and message ([FileNotFoundError], [JSONDecodeError], [KeyError],
    [TypeError], ...); [KeyboardInterrupt] derives from [BaseException]
    only. *)
Inductive exn : Type :=
| Abort
| CalledProcessError (returncode : Z) (stdout stderr : string)
| PyError (name msg : string)
| KeyboardInterrupt.

(** What [subprocess.run] is asked to execute: a string for the shell
    ([shell=True]) or an argument vector. *)
Inductive invocation : Type :=
| ShellCmd (command : string)
| Argv (args : list string).

(** What the outside world makes of an execution: the process ran and
    exited with a status and its captured output, it could not be started
    (an [OSError] such as [FileNotFoundError]), or the wait was
    interrupted from the keyboard. *)
Inductive proc_result : Type :=
| Exited (returncode : Z) (stdout stderr : string)
| NotStarted (name msg : string)
| Interrupted.

Definition exit_ok (p : proc_result) : bool :=
  match p with
  | Exited rc _ _ => (rc =? 0)%Z
  | _ => false
  end.

Inductive write_result : Type :=
| Written
| WriteError (name msg : string).

(** What a run does, in order: executions with what came of them, lines
    echoed to the user, files written, and entries into a command of the
    CLI (recorded so that the steps a run went through can be read off
    it). *)
Inductive event : Type :=
| Spawn (i : invocation) (p : proc_result)
| Echo (line : string)
| Write (path content : string) (r : write_result)
| Invoke (command : string).

Record CompletedProcess : Type := mkCompleted {
  args : invocation;
  stdout : string;
  stderr : string
}.

(** The outside world.  [spawn] and [write_file] answer in a state of the
    world and give the next one; [json_loads] is Python's [json.loads],
    [None] when the text is no JSON document. *)
Record Env : Type := mkEnv {
  world : Type;
  spawn : invocation -> world -> proc_result * world;
  write_file : string -> string -> world -> write_result * world;
  json_loads : string -> option Py.value
}.

Inductive result (A : Type) : Type :=
| Ok (a : A)
| Raise (e : exn).
Arguments Ok {A} a.
Arguments Raise {A} e.

Record Run (W A : Type) : Type := mkRun {
  res : result A;
  final : W;
  events : list event
}.
Arguments mkRun {W A} res final events.
Arguments res {W A} r.
Arguments final {W A} r.
Arguments events {W A} r.

(** A run that comes after the events [ev]. *)
Definition after {W A} (ev : list event) (r : Run W A) : Run W A :=
  match r with
  | mkRun x w ev' => mkRun x w (ev ++ ev')%list
  end.

(** Commands executed, lines echoed and commands of the CLI entered, in
    order. *)
Fixpoint spawned (tr : list event) : list invocation :=
  match tr with
  | [] => []
  | Spawn i _ :: tr' => i :: spawned tr'
  | _ :: tr' => spawned tr'
  end.

Fixpoint echoed (tr : list event) : list string :=
  match tr with
  | [] => []
  | Echo s :: tr' => s :: echoed tr'
  | _ :: tr' => echoed tr'
  end.

Fixpoint invoked (tr : list event) : list string :=
  match tr with
  | [] => []
  | Invoke c :: tr' => c :: invoked tr'
  | _ :: tr' => invoked tr'
  end.

Fixpoint argv_eqb (x y : list string) : bool :=
  match x, y with
  | [], [] => true
  | a :: x', b :: y' => String.eqb a b && argv_eqb x' y'
  | _, _ => false
  end.

Definition invocation_eqb (a b : invocation) : bool :=
  match a, b with
  | ShellCmd x, ShellCmd y => String.eqb x y
  | Argv x, Argv y => argv_eqb x y
  | _, _ => false
  end.

(** [issued c tr]: the command [c] was executed in [tr]. *)
Definition issued (c : invocation) (tr : list event) : bool :=
  existsb (invocation_eqb c) (spawned tr).

(** ** Constants of the program: message marks and documents *)

(** The marks that open the status lines, byte for byte as the source
    file holds them. *)
Definition ok_mark : string := "‚úÖ".
Definition fail_mark : string := "‚ùå".
Definition note_mark : string := "üìù".
Definition warn_mark : string := "‚ö†Ô∏è".
Definition pin_mark : string := "üìç".
Definition done_mark : string := "‚ú®".

(** [cluster_config] of [create_cluster]. *)
Definition cluster_config : string :=
"
kind: Cluster
apiVersion: kind.x-k8s.io/v1alpha4
nodes:
- role: control-plane
  extraPortMappings:
  - containerPort: 80
    hostPort: 80
    protocol: TCP
  - containerPort: 443
    hostPort: 443
    protocol: TCP
- role: worker
- role: worker
- role: worker
networking:
  disableDefaultCNI: true
containerdConfigPatches:
- |-
  [plugins." ++ Py.dq ++ "io.containerd.grpc.v1.cri" ++ Py.dq ++ ".registry]
    config_path = " ++ Py.dq ++ "/etc/containerd/certs.d" ++ Py.dq ++ "
".

(** [config_map] of [configure_registry], for a registry port. *)
Definition config_map (reg_port : string) : string :=
"
apiVersion: v1
kind: ConfigMap
metadata:
  name: local-registry-hosting
  namespace: kube-public
data:
  localRegistryHosting.v1: |
    host: " ++ Py.dq ++ "localhost:" ++ reg_port ++ Py.dq ++ "
    help: " ++ Py.dq ++ "https://kind.sigs.k8s.io/docs/user/local-registry/" ++ Py.dq ++ "
".

(** [json.dumps(patch_data)] of [install_argocd]: the one-key object
    nested in a one-key object, with Python's default separators. *)
Definition patch_data_json : string :=
  "{" ++ Py.dq ++ "spec" ++ Py.dq ++ ": {" ++ Py.dq ++ "type" ++ Py.dq ++ ": "
      ++ Py.dq ++ "LoadBalancer" ++ Py.dq ++ "}}".

(** ** The program *)

Section Program.

Variable E : Env.

Definition M (A : Type) : Type := world E -> Run (world E) A.

Definition ret {A} (a : A) : M A := fun w => mkRun (Ok a) w [].

Definition raise {A} (e : exn) : M A := fun w => mkRun (Raise e) w [].

Definition bind {A B} (m : M A) (k : A -> M B) : M B := fun w =>
  match m w with
  | mkRun (Ok a) w1 ev => after ev (k a w1)
  | mkRun (Raise e) w1 ev => mkRun (Raise e) w1 ev
  end.

Notation "x <- m ;; k" := (bind m (fun x => k))
  (at level 61, m at next level, right associativity).
Notation "m ;; k" := (bind m (fun _ => k))
  (at level 61, right associativity).

(** [try: body except ...: handler]: [handler e] is the clause that
    matches [e], if one does.  An exception raised by the clause itself
    is not offered to the other clauses. *)
Definition try_except {A} (body : M A) (handler : exn -> option (M A)) : M A :=
  fun w =>
    match body w with
    | mkRun (Ok a) w1 ev => mkRun (Ok a) w1 ev
    | mkRun (Raise e) w1 ev =>
        match handler e with
        | Some h => after ev (h w1)
        | None => mkRun (Raise e) w1 ev
        end
    end.

(** [for x in xs: body x]. *)
Fixpoint for_each {A} (xs : list A) (body : A -> M unit) : M unit :=
  match xs with
  | [] => ret tt
  | x :: xs' => body x ;; for_each xs' body
  end.

Definition echo (line : string) : M unit :=
  fun w => mkRun (Ok tt) w [Echo line].

Definition invoke (command : string) : M unit :=
  fun w => mkRun (Ok tt) w [Invoke command].

(** [subprocess.run(..., check=True, text=True, capture_output=True)]. *)
Definition subprocess_run (i : invocation) : M CompletedProcess := fun w =>
  let (p, w') := spawn E i w in
  mkRun
    match p with
    | Exited rc out err =>
        if (rc =? 0)%Z then Ok (mkCompleted i out err)
        else Raise (CalledProcessError rc out err)
    | NotStarted name msg => Raise (PyError name msg)
    | Interrupted => Raise KeyboardInterrupt
    end
    w' [Spawn i p].

(** [with open(path, "w") as f: f.write(content)]. *)
Definition open_write (path content : string) : M unit := fun w =>
  let (r, w') := write_file E path content w in
  mkRun
    match r with
    | Written => Ok tt
    | WriteError name msg => Raise (PyError name msg)
    end
    w' [Write path content r].

(** The argument [run_command] hands to [subprocess.run]. *)
Definition invocation_of (command : string) (shell : bool) : invocation :=
  if shell then ShellCmd command else Argv (Py.split command).

Definition run_command (command : string) (shell : bool) : M CompletedProcess :=
  try_except
    (subprocess_run (invocation_of command shell))
    (fun e =>
       match e with
       | CalledProcessError _ _ e_stderr =>
           Some (echo ("Error executing command: " ++ command) ;;
                 echo ("Error output: " ++ e_stderr) ;;
                 raise Abort)
       | _ => None
       end).

(** [json.loads(text)] and [v[k]] as statements that may raise.  The
    message of these exceptions is left empty: no handler of the program
    reads it. *)
Definition loads (text : string) : M Py.value :=
  match json_loads E text with
  | Some v => ret v
  | None => raise (PyError "JSONDecodeError" EmptyString)
  end.

Definition subscript (v : Py.value) (k : Py.key) : M Py.value :=
  match Py.getitem v k with
  | inl x => ret x
  | inr cls => raise (PyError cls EmptyString)
  end.

Definition create_namespace_if_not_exists (namespace : string) : M unit :=
  try_except
    (result <- run_command ("kubectl get namespace " ++ namespace) false ;;
     ret tt)
    (fun e =>
       match e with
       | CalledProcessError _ _ _ =>
           Some (run_command ("kubectl create namespace " ++ namespace) false ;;
                 echo ("Created namespace " ++ namespace))
       | Abort =>
           (* [str(e)] of a [click.Abort()] is the empty string *)
           Some (echo ("Unexpected error: " ++ EmptyString) ;; raise Abort)
       | PyError _ msg =>
           Some (echo ("Unexpected error: " ++ msg) ;; raise Abort)
       | KeyboardInterrupt => None
       end).

Definition required_tools : list string := ["kind"; "docker"; "kubectl"; "helm"].

Definition not_installed (tool : string) : string :=
  "Error: " ++ tool ++ " is not installed or not in PATH".

Definition check_tool (tool : string) : M unit :=
  try_except
    (run_command ("which " ++ tool) false ;; ret tt)
    (fun _ => Some (echo (not_installed tool) ;; raise Abort)).

Definition check_prerequisites : M unit :=
  for_each required_tools check_tool.

Definition check : M unit :=
  invoke "check" ;;
  try_except
    (check_prerequisites ;;
     echo (ok_mark ++ " All prerequisites are installed!"))
    (fun e =>
       match e with
       | Abort => Some (echo (fail_mark ++ " Prerequisites check failed"))
       | _ => None
       end).

(** The first block of [cleanup]: list the clusters and delete the one
    named [cluster_name] when the listing shows the name. *)
Definition delete_cluster (cluster_name : string) : M unit :=
  result <- run_command "kind get clusters" false ;;
  if Py.contains cluster_name (stdout result)
  then echo ("Deleting existing Kind cluster '" ++ cluster_name ++ "'...") ;;
       run_command ("kind delete cluster --name " ++ cluster_name) false ;;
       ret tt
  else ret tt.

(** The body of the [try] of [cleanup]. *)
Definition stop_running_registry (reg_name : string) : M unit :=
  docker_inspect <- run_command ("docker inspect " ++ reg_name) false ;;
  container_info <- loads (stdout docker_inspect) ;;
  running <- (if Py.truthy container_info
              then first <- subscript container_info (Py.KInt 0) ;;
                   state <- subscript first (Py.KStr "State") ;;
                   subscript state (Py.KStr "Running")
              else ret container_info) ;;
  if Py.truthy running
  then echo ("Deleting existing registry container '" ++ reg_name ++ "'...") ;;
       run_command ("docker stop " ++ reg_name) false ;;
       run_command ("docker rm " ++ reg_name) false ;;
       ret tt
  else ret tt.

(** The second block of [cleanup]: the [try] with its bare [except: pass]. *)
Definition delete_registry (reg_name : string) : M unit :=
  try_except (stop_running_registry reg_name) (fun _ => Some (ret tt)).

Definition cleanup : M unit :=
  invoke "cleanup" ;;
  let cluster_name := "kind" in
  let reg_name := "kind-registry" in
  delete_cluster cluster_name ;;
  delete_registry reg_name ;;
  echo (ok_mark ++ " Cleanup completed!").

Definition setup_registry : M unit :=
  invoke "setup_registry" ;;
  let reg_name := "kind-registry" in
  let reg_port := "5001" in
  echo "Setting up local registry..." ;;
  run_command
    ("docker run -d --restart=always -p 127.0.0.1:" ++ reg_port ++ ":5000 "
     ++ "--network bridge --name " ++ reg_name ++ " registry:2")
    true ;;
  echo (ok_mark ++ " Registry setup completed!").

Definition create_cluster : M unit :=
  invoke "create_cluster" ;;
  echo "Creating Kind cluster..." ;;
  open_write "kind-config.yaml" cluster_config ;;
  run_command "kind create cluster --config kind-config.yaml" false ;;
  echo (ok_mark ++ " Cluster created successfully!").

Definition configure_node (reg_name reg_port node : string) : M unit :=
  let registry_dir := "/etc/containerd/certs.d/localhost:" ++ reg_port in
  run_command ("docker exec " ++ node ++ " mkdir -p " ++ registry_dir) true ;;
  let hosts_toml :=
    "[host." ++ Py.dq ++ "http://" ++ reg_name ++ ":5000" ++ Py.dq ++ "]" in
  run_command
    ("echo " ++ Py.dq ++ hosts_toml ++ Py.dq ++ " | docker exec -i " ++ node
     ++ " tee " ++ registry_dir ++ "/hosts.toml")
    true ;;
  ret tt.

Definition connect_registry (reg_name : string) : M unit :=
  try_except
    (run_command ("docker network connect kind " ++ reg_name) true ;; ret tt)
    (fun _ => Some (echo "Registry already connected to network")).

Definition configure_registry : M unit :=
  invoke "configure_registry" ;;
  let reg_name := "kind-registry" in
  let reg_port := "5001" in
  echo "Configuring registry in the cluster..." ;;
  listing <- run_command "kind get nodes" false ;;
  let nodes := Py.split_on (ascii_of_nat 10) (Py.strip (stdout listing)) in
  for_each nodes (configure_node reg_name reg_port) ;;
  connect_registry reg_name ;;
  open_write "registry-config.yaml" (config_map reg_port) ;;
  run_command "kubectl apply -f registry-config.yaml" false ;;
  echo (ok_mark ++ " Registry configured successfully!").

Definition install_cilium : M unit :=
  invoke "install_cilium" ;;
  echo "Installing Cilium..." ;;
  run_command "docker pull quay.io/cilium/cilium:v1.17.1" false ;;
  run_command "kind load docker-image quay.io/cilium/cilium:v1.17.1" false ;;
  run_command "helm repo add cilium https://helm.cilium.io/" false ;;
  run_command
    ("helm upgrade --install cilium cilium/cilium --version 1.17.1 "
     ++ "--namespace kube-system "
     ++ "--set image.pullPolicy=IfNotPresent "
     ++ "--set ipam.mode=kubernetes "
     ++ "--set cni.install=true "
     ++ "--set cni.chainingMode=generic-veth "
     ++ "--set hubble.relay.enabled=true "
     ++ "--set hubble.ui.enabled=true "
     ++ "--set kubeProxyReplacement=true "
     ++ "--set loadBalancer.l7.backend=envoy "
     ++ "--set arp.enabled=true")
    true ;;
  run_command "kubectl -n kube-system rollout status daemonset/cilium" false ;;
  echo (ok_mark ++ " Cilium installed successfully!").

Definition install_multus : M unit :=
  invoke "install_multus" ;;
  echo "Installing Multus..." ;;
  run_command
    ("kubectl apply -f "
     ++ "https://raw.githubusercontent.com/k8snetworkplumbingwg/multus-cni/master/deployments/multus-daemonset.yml")
    false ;;
  run_command "kubectl -n kube-system rollout status daemonset/kube-multus-ds" false ;;
  echo (ok_mark ++ " Multus installed successfully!").

Definition retrieve_password : M unit :=
  try_except
    (secret <- run_command
       ("kubectl -n argocd get secret argocd-initial-admin-secret "
        ++ "-o jsonpath='{.data.password}' | base64 -d")
       true ;;
     let password := Py.strip (stdout secret) in
     echo (Py.nl ++ note_mark ++ " Initial admin password: " ++ password))
    (fun _ =>
       Some (echo (Py.nl ++ warn_mark ++ "  Could not retrieve initial admin password"))).

Definition install_argocd : M unit :=
  invoke "install_argocd" ;;
  echo "Installing ArgoCD..." ;;
  create_namespace_if_not_exists "argocd" ;;
  run_command
    ("kubectl apply -f "
     ++ "https://raw.githubusercontent.com/argoproj/argo-cd/stable/manifests/install.yaml "
     ++ "-n argocd")
    false ;;
  run_command "kubectl -n argocd rollout status deployment/argocd-server" false ;;
  run_command
    ("kubectl patch svc argocd-server -n argocd -p '" ++ patch_data_json ++ "'")
    true ;;
  retrieve_password ;;
  echo (ok_mark ++ " ArgoCD installed successfully!") ;;
  echo (Py.nl ++ "To access ArgoCD UI, run:") ;;
  echo "cosmic port-forward-argocd".

Definition port_forward_argocd : M unit :=
  invoke "port_forward_argocd" ;;
  echo "Starting port forward for ArgoCD..." ;;
  echo "Access the UI at: https://localhost:8080" ;;
  echo "Use username: admin" ;;
  echo "Press Ctrl+C to stop" ;;
  try_except
    (run_command "kubectl port-forward svc/argocd-server -n argocd 8080:443" true ;;
     ret tt)
    (fun e =>
       match e with
       | KeyboardInterrupt => Some (echo (Py.nl ++ "Port forward stopped"))
       | _ => None
       end).

Definition verify : M unit :=
  invoke "verify" ;;
  echo "Verifying installation..." ;;
  cilium_pods <- run_command "kubectl get pods -n kube-system -l k8s-app=cilium" false ;;
  echo (Py.nl ++ "Cilium pods:") ;;
  echo (stdout cilium_pods) ;;
  multus_pods <- run_command "kubectl get pods -n kube-system -l app=multus" false ;;
  echo (Py.nl ++ "Multus pods:") ;;
  echo (stdout multus_pods) ;;
  echo (ok_mark ++ " Verification completed!").

(** The step list of [setup_all]: display name and command. *)
Definition commands : list (string * M unit) :=
  [ ("Prerequisites Check", check);
    ("Cleanup", cleanup);
    ("Setup Registry", setup_registry);
    ("Create Cluster", create_cluster);
    ("Configure Registry", configure_registry);
    ("Install Cilium", install_cilium);
    ("Install Multus", install_multus);
    ("Verify Installation", verify) ].

Definition starting (step_name : string) : string :=
  Py.nl ++ pin_mark ++ " Starting " ++ step_name ++ "...".

Definition failed_during (step_name : string) : string :=
  fail_mark ++ " Setup failed during " ++ step_name.

(** One turn of the loop of [setup_all]: [true] when the loop goes on,
    [false] when the handler has returned from the function. *)
Definition run_step (step_name : string) (command : M unit) : M bool :=
  echo (starting step_name) ;;
  try_except
    (command ;; ret true)
    (fun e =>
       match e with
       | Abort => Some (echo (failed_during step_name) ;; ret false)
       | _ => None
       end).

(** The loop of [setup_all] over a step list, with the line after it. *)
Fixpoint run_steps (steps : list (string * M unit)) : M unit :=
  match steps with
  | [] => echo (Py.nl ++ done_mark ++ " Complete setup finished successfully!")
  | (step_name, command) :: rest =>
      continue <- run_step step_name command ;;
      if continue then run_steps rest else ret tt
  end.

Definition setup_all : M unit :=
  invoke "setup_all" ;;
  run_steps commands.

End Program.

Arguments M E A : clear implicits.
Arguments ret {E A} a w.
Arguments raise {E A} e w.
Arguments bind {E A B} m k w.
Arguments try_except {E A} body handler w.
Arguments for_each {E A} xs body.
Arguments echo {E} line w.
Arguments invoke {E} command w.
Arguments subprocess_run {E} i w.
Arguments open_write {E} path content w.
Arguments run_command {E} command shell.
Arguments loads {E} text.
Arguments subscript {E} v k.
Arguments create_namespace_if_not_exists {E} namespace.
Arguments check_tool {E} tool.
Arguments check_prerequisites {E}.
Arguments check {E}.
Arguments delete_cluster {E} cluster_name.
Arguments stop_running_registry {E} reg_name.
Arguments delete_registry {E} reg_name.
Arguments cleanup {E}.
Arguments setup_registry {E}.
Arguments create_cluster {E}.
Arguments configure_node {E} reg_name reg_port node.
Arguments connect_registry {E} reg_name.
Arguments configure_registry {E}.
Arguments install_cilium {E}.
Arguments install_multus {E}.
Arguments retrieve_password {E}.
Arguments install_argocd {E}.
Arguments port_forward_argocd {E}.
Arguments verify {E}.
Arguments commands {E}.
Arguments run_step {E} step_name command.
Arguments run_steps {E} steps.
Arguments setup_all {E}.

Notation "x <- m ;; k" := (bind m (fun x => k))
  (at level 61, m at next level, right associativity).
Notation "m ;; k" := (bind m (fun _ => k))
  (at level 61, right associativity).

(** ** Environments to run the program in *)

(** A host without memory: the commands listed in [failing] exit with
    status 1 and [complaint] on their standard error, every other command
    exits with status 0 and prints what [out] says; every file write
    succeeds. *)
Definition complaint : string := "failed".

Definition fixed_host (failing : list invocation) (out : invocation -> string)
    (json : string -> option Py.value) : Env :=
  mkEnv unit
    (fun i w =>
       (if existsb (invocation_eqb i) failing
        then Exited 1 EmptyString complaint
        else Exited 0 (out i) EmptyString, w))
    (fun _ _ w => (Written, w))
    json.

Definition silent (i : invocation) : string := EmptyString.
Definition no_json (text : string) : option Py.value := None.

(** The host on which every command succeeds and prints nothing. *)
Definition fair_host : Env := fixed_host [] silent no_json.

(** A host that remembers: the kind clusters by name and the registry
    container.  [kind get clusters] lists the clusters one per line (and
    complains on standard error when there is none), [kind delete
    cluster --name n] forgets [n], [docker inspect kind-registry] fails
    when there is no container and else prints a document that
    [json_loads] reads, [docker stop] and [docker rm] do their work or
    fail with status 1 when they cannot; every other command succeeds
    and prints nothing. *)
Inductive container : Type := NoContainer | Stopped | Up.

Record lab : Type := mkLab {
  clusters : list string;
  registry : container
}.

Definition inspect_doc (running : bool) : string :=
  "[{" ++ Py.dq ++ "State" ++ Py.dq ++ ": {" ++ Py.dq ++ "Running" ++ Py.dq
       ++ ": " ++ (if running then "true" else "false") ++ "}}]".

Definition inspect_value (running : bool) : Py.value :=
  Py.VList [Py.VDict [("State", Py.VDict [("Running", Py.VBool running)])]].

Definition lab_json (text : string) : option Py.value :=
  if String.eqb text (inspect_doc true) then Some (inspect_value true)
  else if String.eqb text (inspect_doc false) then Some (inspect_value false)
  else if String.eqb text "[]" then Some (Py.VList [])
  else None.

Definition lines (l : list string) : string :=
  String.concat EmptyString (map (fun s => s ++ Py.nl) l).

Definition lab_spawn (i : invocation) (w : lab) : proc_result * lab :=
  match i with
  | Argv ["kind"; "get"; "clusters"] =>
      (match clusters w with
       | [] => Exited 0 EmptyString "No kind clusters found."
       | l => Exited 0 (lines l) EmptyString
       end, w)
  | Argv ["kind"; "delete"; "cluster"; "--name"; n] =>
      (Exited 0 EmptyString EmptyString,
       mkLab (filter (fun c => negb (String.eqb c n)) (clusters w)) (registry w))
  | Argv ["docker"; "inspect"; "kind-registry"] =>
      (match registry w with
       | NoContainer => Exited 1 "[]" "Error: No such object: kind-registry"
       | Stopped => Exited 0 (inspect_doc false) EmptyString
       | Up => Exited 0 (inspect_doc true) EmptyString
       end, w)
  | Argv ["docker"; "stop"; "kind-registry"] =>
      match registry w with
      | NoContainer => (Exited 1 EmptyString "Error: No such container", w)
      | _ => (Exited 0 "kind-registry" EmptyString, mkLab (clusters w) Stopped)
      end
  | Argv ["docker"; "rm"; "kind-registry"] =>
      match registry w with
      | Stopped => (Exited 0 "kind-registry" EmptyString,
                    mkLab (clusters w) NoContainer)
      | _ => (Exited 1 EmptyString "Error: cannot remove container", w)
      end
  | _ => (Exited 0 EmptyString EmptyString, w)
  end.

Definition lab_host : Env :=
  mkEnv lab lab_spawn (fun _ _ w => (Written, w)) lab_json.

(** The host on which [kind] does not work: listing the clusters exits
    with status 1, whatever else is there. *)
Definition kind_down : Env :=
  fixed_host [Argv ["kind"; "get"; "clusters"]] silent no_json.

(** A host whose cluster has two nodes and whose registry is already on
    the [kind] network, so that connecting it again fails. *)
Definition two_nodes (i : invocation) : string :=
  if invocation_eqb i (invocation_of "kind get nodes" false)
  then "kind-control-plane" ++ Py.nl ++ "kind-worker" ++ Py.nl
  else EmptyString.

Definition connected_host : Env :=
  fixed_host [invocation_of "docker network connect kind kind-registry" true]
    two_nodes no_json.

(** A host ready for the whole setup: every command succeeds, and the
    cluster has two nodes. *)
Definition ready_host : Env := fixed_host [] two_nodes no_json.

(** A host without [kind] on the search path: [which kind] exits with
    status 1 and no [kind] command can be started; every other command
    succeeds and prints nothing. *)
Definition no_kind_host : Env :=
  mkEnv unit
    (fun i w =>
       (match i with
        | Argv ["which"; "kind"] => Exited 1 EmptyString EmptyString
        | Argv ("kind" :: _) =>
            NotStarted "FileNotFoundError"
              "[Errno 2] No such file or directory: 'kind'"
        | _ => Exited 0 EmptyString EmptyString
        end, w))
    (fun _ _ w => (Written, w))
    no_json.

(** ** Words to state the claims in *)

(** The lines of a run that report an error of the tool itself: they
    start with [Error: ].  (The two lines [run_command] echoes for a
    failed command start otherwise.) *)
Definition reports (tr : list event) : list string :=
  filter (String.prefix "Error: ") (echoed tr).

(** The functions behind the steps of [setup_all], in the order of its
    list. *)
Definition step_functions : list string :=
  ["check"; "cleanup"; "setup_registry"; "create_cluster";
   "configure_registry"; "install_cilium"; "install_multus"; "verify"].

Section Vocabulary.

Variable E : Env.

(** A tool resolves on the search path when [which tool] exits with
    status zero, whatever the state of the world; it is missing when
    [which tool] does not. *)
Definition resolves (tool : string) : Prop :=
  forall w : world E,
    exit_ok (fst (spawn E (invocation_of ("which " ++ tool) false) w)) = true.

Definition missing (tool : string) : Prop :=
  forall w : world E,
    exit_ok (fst (spawn E (invocation_of ("which " ++ tool) false) w)) = false.

(** [configure_registry] up to the loop over the nodes, and from the
    network connection on. *)
Definition prepare_nodes : M E unit :=
  invoke "configure_registry" ;;
  echo "Configuring registry in the cluster..." ;;
  listing <- run_command "kind get nodes" false ;;
  for_each (Py.split_on (ascii_of_nat 10) (Py.strip (stdout listing)))
    (configure_node "kind-registry" "5001").

Definition publish_registry : M E unit :=
  connect_registry "kind-registry" ;;
  open_write "registry-config.yaml" (config_map "5001") ;;
  run_command "kubectl apply -f registry-config.yaml" false ;;
  echo (ok_mark ++ " Registry configured successfully!").

(** Every step of [steps] ends normally, each run in the world its
    predecessors leave. *)
Fixpoint steps_succeed (steps : list (string * M E unit)) (w : world E) : Prop :=
  match steps with
  | [] => True
  | (_, command) :: rest =>
      res (command w) = Ok tt /\ steps_succeed rest (final (command w))
  end.

(** The world a step list leaves when its steps are run one after the
    other. *)
Fixpoint world_after (steps : list (string * M E unit)) (w : world E) : world E :=
  match steps with
  | [] => w
  | (_, command) :: rest => world_after rest (final (command w))
  end.

End Vocabulary.

Arguments resolves E tool : clear implicits.
Arguments missing E tool : clear implicits.
Arguments prepare_nodes {E}.
Arguments publish_registry {E}.
Arguments steps_succeed {E} steps w.
Arguments world_after {E} steps w.

(** ** Words for further properties *)

(** The result is a raised [CalledProcessError]; the result is a raised
    [Abort]. *)
Definition raises_called_process_error {A} (r : result A) : bool :=
  match r with
  | Raise (CalledProcessError _ _ _) => true
  | _ => false
  end.

Definition raises_abort {A} (r : result A) : bool :=
  match r with
  | Raise Abort => true
  | _ => false
  end.

(** A word: a string that is not empty and holds no blank. *)
Fixpoint no_blank (s : string) : bool :=
  match s with
  | EmptyString => true
  | String c s' => negb (Py.isspace c) && no_blank s'
  end.

Definition is_word (s : string) : bool := negb (Py.is_empty s) && no_blank s.

(** Words with one space between them. *)
Definition unwords (words : list string) : string := String.concat " " words.


(** A host whose registry container runs and cannot be stopped. *)
Definition running_doc (i : invocation) : string :=
  if invocation_eqb i (invocation_of "docker inspect kind-registry" false)
  then inspect_doc true
  else EmptyString.

Definition stuck_registry_host : Env :=
  fixed_host [invocation_of "docker stop kind-registry" false]
    running_doc lab_json.


(** Names one per line, each followed by a line feed, as a listing
    command prints them. *)
Fixpoint unlines (names : list string) : string :=
  match names with
  | [] => EmptyString
  | name :: names' => name ++ Py.nl ++ unlines names'
  end.

(** The two commands [configure_registry] executes for a node. *)
Definition node_commands (node : string) : list invocation :=
  [ShellCmd ("docker exec " ++ node
             ++ " mkdir -p /etc/containerd/certs.d/localhost:5001");
   ShellCmd ("echo " ++ Py.dq ++ "[host." ++ Py.dq
             ++ "http://kind-registry:5000" ++ Py.dq ++ "]" ++ Py.dq
             ++ " | docker exec -i " ++ node
             ++ " tee /etc/containerd/certs.d/localhost:5001/hosts.toml")].

(** An environment in which every command exits with status zero, and
    one in which every file write succeeds. *)
Definition all_succeed (E : Env) : Prop :=
  forall (i : invocation) (w : world E), exit_ok (fst (spawn E i w)) = true.

Definition writes_succeed (E : Env) : Prop :=
  forall (path content : string) (w : world E),
    fst (write_file E path content w) = Written.


(** A host on which no file can be written, and a host on which the
    user interrupts every command from the keyboard. *)
Definition read_only_host : Env :=
  mkEnv unit
    (fun _ w => (Exited 0 EmptyString EmptyString, w))
    (fun _ _ w => (WriteError "PermissionError" "[Errno 13] Permission denied", w))
    no_json.

Definition interrupting_host : Env :=
  mkEnv unit (fun _ w => (Interrupted, w)) (fun _ _ w => (Written, w)) no_json.

(** The commands of [install_cilium], in the order of the source. *)
Definition cilium_commands : list invocation :=
  [invocation_of "docker pull quay.io/cilium/cilium:v1.17.1" false;
   invocation_of "kind load docker-image quay.io/cilium/cilium:v1.17.1" false;
   invocation_of "helm repo add cilium https://helm.cilium.io/" false;
   invocation_of
     "helm upgrade --install cilium cilium/cilium --version 1.17.1 --namespace kube-system --set image.pullPolicy=IfNotPresent --set ipam.mode=kubernetes --set cni.install=true --set cni.chainingMode=generic-veth --set hubble.relay.enabled=true --set hubble.ui.enabled=true --set kubeProxyReplacement=true --set loadBalancer.l7.backend=envoy --set arp.enabled=true"
     true;
   invocation_of "kubectl -n kube-system rollout status daemonset/cilium" false].

(** * Running the program by hand

    [run] unfolds the control operators and simplifies; where the run
    depends on an answer of the environment it uses the hypothesis that
    gives the answer.  [run_all] splits on the answers no hypothesis
    gives. *)

Ltac simp :=
  cbn -[invocation_of Py.contains Py.split_on Py.strip Py.truthy Py.getitem
        Py.lookup Z.eqb].

Ltac known :=
  match goal with
  | H : ?x = _ |- context [match ?x with _ => _ end] => rewrite H
  | H : ?x = _ |- context [if ?x then _ else _] => rewrite H
  end.

Ltac split_answer :=
  match goal with
  | |- context [spawn ?E ?i ?w] =>
      destruct (spawn E i w) as [[? ? ?|? ?|] ?] eqn:?
  | |- context [write_file ?E ?p ?c ?w] =>
      destruct (write_file E p c w) as [[|? ?] ?] eqn:?
  | |- context [json_loads ?E ?s] => destruct (json_loads E s) eqn:?
  | |- context [if (?x =? 0)%Z then _ else _] => destruct (x =? 0)%Z eqn:?
  | |- context [if Py.contains ?a ?b then _ else _] =>
      destruct (Py.contains a b) eqn:?
  | |- context [if Py.truthy ?v then _ else _] => destruct (Py.truthy v) eqn:?
  | |- context [match Py.getitem ?v ?k with _ => _ end] =>
      destruct (Py.getitem v k) eqn:?
  end.

Ltac run := simp; repeat (first [rewrite Z.eqb_refl | known]; simp).
Ltac run_all :=
  simp; repeat (first [rewrite Z.eqb_refl | known | split_answer]; simp).

(** [answer Hc Hw] takes the environment's next answer from [Hc], which
    says that every command exits with status zero, or from [Hw], which
    says that every write succeeds. *)
Ltac answer Hc Hw :=
  match goal with
  | |- context [spawn ?E ?i ?w] =>
      let H := fresh "Hexit" in
      pose proof (Hc i w) as H;
      destruct (spawn E i w) as [[rc ? ?|? ?|] ?]; cbn [fst exit_ok] in H;
      [apply Z.eqb_eq in H; subst rc | discriminate H | discriminate H]
  | |- context [write_file ?E ?p ?c ?w] =>
      let H := fresh "Hwritten" in
      pose proof (Hw p c w) as H;
      destruct (write_file E p c w) as [r ?]; cbn [fst] in H; subst r
  end.

(** * The command runner *)

Section CommandRunner.

Variable E : Env.

Lemma run_command_exit0 (command : string) (shell : bool) (w w' : world E)
    (out err : string) :
  spawn E (invocation_of command shell) w = (Exited 0 out err, w') ->
  run_command command shell w
  = mkRun (Ok (mkCompleted (invocation_of command shell) out err)) w'
      [Spawn (invocation_of command shell) (Exited 0 out err)].
Proof.
  intros Hs. unfold run_command, try_except, subprocess_run.
  rewrite Hs. reflexivity.
Qed.

Lemma run_command_nonzero (command : string) (shell : bool) (w w' : world E)
    (rc : Z) (out err : string) :
  spawn E (invocation_of command shell) w = (Exited rc out err, w') ->
  rc <> 0%Z ->
  run_command command shell w
  = mkRun (Raise Abort) w'
      [Spawn (invocation_of command shell) (Exited rc out err);
       Echo ("Error executing command: " ++ command);
       Echo ("Error output: " ++ err)].
Proof.
  intros Hs Hrc. unfold run_command, try_except, subprocess_run.
  rewrite Hs. cbn.
  destruct (rc =? 0)%Z eqn:Hz; [apply Z.eqb_eq in Hz; contradiction|].
  reflexivity.
Qed.

Lemma run_command_not_started (command : string) (shell : bool) (w w' : world E)
    (name msg : string) :
  spawn E (invocation_of command shell) w = (NotStarted name msg, w') ->
  run_command command shell w
  = mkRun (Raise (PyError name msg)) w'
      [Spawn (invocation_of command shell) (NotStarted name msg)].
Proof.
  intros Hs. unfold run_command, try_except, subprocess_run.
  rewrite Hs. reflexivity.
Qed.

Lemma run_command_interrupted (command : string) (shell : bool) (w w' : world E) :
  spawn E (invocation_of command shell) w = (Interrupted, w') ->
  run_command command shell w
  = mkRun (Raise KeyboardInterrupt) w'
      [Spawn (invocation_of command shell) Interrupted].
Proof.
  intros Hs. unfold run_command, try_except, subprocess_run.
  rewrite Hs. reflexivity.
Qed.

(** C4.  A command whose process exits with a non-zero status makes
    [run_command] echo the command text and the captured standard error
    and then raise [Abort]: no value is returned, a caller that sequences
    more work after the call does not get to run it, and a caller that
    wraps the call in a handler for [Abort] does.  A command whose process
    exits with status zero makes [run_command] return the captured output
    and echo nothing. *)
Theorem run_command_exit_status (command : string) (shell : bool)
    (w w' : world E) (rc : Z) (out err : string) :
  spawn E (invocation_of command shell) w = (Exited rc out err, w') ->
  let i := invocation_of command shell in
  let report := [Spawn i (Exited rc out err);
                 Echo ("Error executing command: " ++ command);
                 Echo ("Error output: " ++ err)] in
  (rc <> 0%Z ->
     run_command command shell w = mkRun (Raise Abort) w' report
     /\ (forall (B : Type) (k : CompletedProcess -> M E B),
           bind (run_command command shell) k w = mkRun (Raise Abort) w' report)
     /\ (forall h : M E CompletedProcess,
           try_except (run_command command shell)
             (fun e => match e with Abort => Some h | _ => None end) w
           = after report (h w')))
  /\ (rc = 0%Z ->
        run_command command shell w
        = mkRun (Ok (mkCompleted i out err)) w' [Spawn i (Exited 0 out err)]).
Proof.
  intros Hs i report. split.
  - intros Hrc.
    pose proof (run_command_nonzero _ _ _ _ _ _ _ Hs Hrc) as Hrun.
    fold i in Hrun. fold report in Hrun.
    split; [exact Hrun|]. split.
    + intros B k. unfold bind. rewrite Hrun. reflexivity.
    + intros h. unfold try_except at 1. rewrite Hrun. reflexivity.
  - intros ->. apply run_command_exit0. exact Hs.
Qed.

End CommandRunner.

Arguments run_command_exit0 {E} command shell w w' out err _.
Arguments run_command_nonzero {E} command shell w w' rc out err _ _.
Arguments run_command_not_started {E} command shell w w' name msg _.
Arguments run_command_interrupted {E} command shell w w' _.

(** The theorem at a host on which [false] exits with status 1. *)
Lemma run_command_exit_status_witness :
  let E := fixed_host [Argv ["false"]] silent no_json in
  spawn E (invocation_of "false" false) tt
    = (Exited 1 EmptyString complaint, tt)
  /\ run_command (E := E) "false" false tt
     = mkRun (Raise Abort) tt
         [Spawn (Argv ["false"]) (Exited 1 EmptyString complaint);
          Echo "Error executing command: false";
          Echo "Error output: failed"].
Proof.
  intros E. split; [reflexivity|].
  apply (run_command_exit_status E "false" false tt tt 1 EmptyString complaint
           eq_refl).
  discriminate.
Defined.


(** * Runs and what can be read off them *)

Lemma spawned_app (a b : list event) :
  spawned (a ++ b) = (spawned a ++ spawned b)%list.
Proof.
  induction a as [|[] a IH]; simpl; rewrite ?IH; reflexivity.
Qed.

Lemma echoed_app (a b : list event) :
  echoed (a ++ b) = (echoed a ++ echoed b)%list.
Proof.
  induction a as [|[] a IH]; simpl; rewrite ?IH; reflexivity.
Qed.

Lemma invoked_app (a b : list event) :
  invoked (a ++ b) = (invoked a ++ invoked b)%list.
Proof.
  induction a as [|[] a IH]; simpl; rewrite ?IH; reflexivity.
Qed.

Lemma issued_app (c : invocation) (a b : list event) :
  issued c (a ++ b) = issued c a || issued c b.
Proof.
  unfold issued. rewrite spawned_app. apply existsb_app.
Qed.

Lemma argv_eqb_refl (x : list string) : argv_eqb x x = true.
Proof.
  induction x as [|a x IH]; simpl; [reflexivity|].
  rewrite String.eqb_refl. exact IH.
Qed.

Lemma invocation_eqb_refl (i : invocation) : invocation_eqb i i = true.
Proof.
  destruct i; simpl; [apply String.eqb_refl | apply argv_eqb_refl].
Qed.

Lemma In_Spawn_issued (i : invocation) (p : proc_result) (tr : list event) :
  In (Spawn i p) tr -> issued i tr = true.
Proof.
  unfold issued. induction tr as [|e tr IH]; simpl; [contradiction|].
  intros [->|Hin]; simpl.
  - rewrite invocation_eqb_refl. reflexivity.
  - destruct e; simpl; rewrite ?IH by assumption;
      rewrite ?orb_true_r; reflexivity.
Qed.

Section Runs.

Variable E : Env.

Lemma res_after {A} (ev : list event) (r : Run (world E) A) :
  res (after ev r) = res r.
Proof. destruct r; reflexivity. Qed.

Lemma final_after {A} (ev : list event) (r : Run (world E) A) :
  final (after ev r) = final r.
Proof. destruct r; reflexivity. Qed.

Lemma events_after {A} (ev : list event) (r : Run (world E) A) :
  events (after ev r) = (ev ++ events r)%list.
Proof. destruct r; reflexivity. Qed.

Lemma res_bind {A B} (m : M E A) (k : A -> M E B) (w : world E) :
  res (bind m k w)
  = match res (m w) with
    | Ok a => res (k a (final (m w)))
    | Raise e => Raise e
    end.
Proof.
  unfold bind. destruct (m w) as [[a|e] w1 ev]; simpl;
    [apply res_after | reflexivity].
Qed.

Lemma final_bind {A B} (m : M E A) (k : A -> M E B) (w : world E) :
  final (bind m k w)
  = match res (m w) with
    | Ok a => final (k a (final (m w)))
    | Raise e => final (m w)
    end.
Proof.
  unfold bind. destruct (m w) as [[a|e] w1 ev]; simpl;
    [apply final_after | reflexivity].
Qed.

Lemma events_bind {A B} (m : M E A) (k : A -> M E B) (w : world E) :
  events (bind m k w)
  = (events (m w)
     ++ match res (m w) with
        | Ok a => events (k a (final (m w)))
        | Raise e => []
        end)%list.
Proof.
  unfold bind. destruct (m w) as [[a|e] w1 ev]; simpl;
    [apply events_after | symmetry; apply app_nil_r].
Qed.

(** A [try] whose bare [except] clause only passes never raises. *)
Lemma res_try_pass (body : M E unit) (w : world E) :
  res (try_except body (fun _ => Some (ret tt)) w) = Ok tt.
Proof.
  unfold try_except. destruct (body w) as [[[]|e] w1 ev]; reflexivity.
Qed.

End Runs.

Section Cleanup.

Variable E : Env.

(** C9.  With no cluster listed and no registry container to inspect,
    [cleanup] ends normally with its completion line, and the two probes
    are the only commands it executes. *)
Theorem cleanup_nothing_to_delete (w w1 w2 : world E) (out err : string)
    (p : proc_result) :
  spawn E (invocation_of "kind get clusters" false) w = (Exited 0 out err, w1) ->
  Py.contains "kind" out = false ->
  spawn E (invocation_of "docker inspect kind-registry" false) w1 = (p, w2) ->
  exit_ok p = false ->
  res (cleanup w) = Ok tt
  /\ final (cleanup w) = w2
  /\ spawned (events (cleanup w))
     = [invocation_of "kind get clusters" false;
        invocation_of "docker inspect kind-registry" false]
  /\ last (echoed (events (cleanup w))) EmptyString
     = ok_mark ++ " Cleanup completed!".
Proof.
  intros Hlist Hno Hinspect Hfail.
  unfold cleanup, delete_cluster, delete_registry, stop_running_registry,
    run_command, subprocess_run, try_except, bind.
  run.
  destruct p as [rc o e|name msg|]; simp.
  - unfold exit_ok in Hfail. run. repeat split.
  - repeat split.
  - repeat split.
Qed.

(** The cluster block touches nothing of the registry. *)
Lemma delete_cluster_leaves_registry (w : world E) :
  issued (invocation_of "docker inspect kind-registry" false)
    (events (delete_cluster "kind" w)) = false
  /\ issued (invocation_of "docker stop kind-registry" false)
       (events (delete_cluster "kind" w)) = false
  /\ issued (invocation_of "docker rm kind-registry" false)
       (events (delete_cluster "kind" w)) = false.
Proof.
  unfold delete_cluster, run_command, subprocess_run, try_except, bind.
  run_all; repeat split; vm_compute; reflexivity.
Qed.

(** The registry block with a registry that is there and not running:
    the probe is all it executes. *)
Lemma delete_registry_not_running (w w' : world E) (out err : string)
    (d : list (string * Py.value)) (rest : list Py.value)
    (st : list (string * Py.value)) :
  spawn E (invocation_of "docker inspect kind-registry" false) w
    = (Exited 0 out err, w') ->
  json_loads E out = Some (Py.VList (Py.VDict d :: rest)) ->
  Py.lookup "State" d = Some (Py.VDict st) ->
  Py.lookup "Running" st = Some (Py.VBool false) ->
  delete_registry "kind-registry" w
  = mkRun (Ok tt) w'
      [Spawn (invocation_of "docker inspect kind-registry" false)
         (Exited 0 out err)].
Proof.
  intros Hs Hj Hstate Hrun.
  unfold delete_registry, stop_running_registry, loads, subscript,
    run_command, subprocess_run, try_except, bind.
  run. unfold Py.getitem, Py.truthy. run. reflexivity.
Qed.

(** The answer the registry probe got can be read off the run. *)
Lemma registry_probe_answer (w : world E) (p : proc_result) :
  In (Spawn (invocation_of "docker inspect kind-registry" false) p)
    (events (delete_registry "kind-registry" w)) ->
  fst (spawn E (invocation_of "docker inspect kind-registry" false) w) = p.
Proof.
  unfold delete_registry, stop_running_registry, loads, subscript,
    run_command, subprocess_run, try_except, bind.
  run_all; intros Hin; vm_compute in Hin;
    repeat (destruct Hin as [Hin|Hin]);
    try contradiction; try discriminate Hin;
    try (injection Hin as <-; reflexivity).
Qed.

(** The registry block never raises. *)
Lemma delete_registry_res (reg_name : string) (w : world E) :
  res (delete_registry reg_name w) = Ok tt.
Proof. apply res_try_pass. Qed.

(** [cleanup] in terms of its two blocks. *)
Lemma cleanup_events (w : world E) :
  events (cleanup w)
  = Invoke "cleanup"
    :: (events (delete_cluster "kind" w)
        ++ match res (delete_cluster "kind" w) with
           | Ok _ =>
               events (delete_registry "kind-registry"
                         (final (delete_cluster "kind" w)))
               ++ [Echo (ok_mark ++ " Cleanup completed!")]
           | Raise _ => []
           end)%list.
Proof.
  unfold cleanup. cbv zeta. rewrite events_bind. cbn [invoke events res final app].
  rewrite events_bind. f_equal. f_equal.
  destruct (res (delete_cluster "kind" w)) as [[]|e]; [|reflexivity].
  rewrite events_bind, delete_registry_res. reflexivity.
Qed.

Lemma cleanup_res (w : world E) :
  res (cleanup w)
  = match res (delete_cluster "kind" w) with
    | Ok _ => Ok tt
    | Raise e => Raise e
    end.
Proof.
  unfold cleanup. cbv zeta. rewrite res_bind. cbn [invoke events res final].
  rewrite res_bind.
  destruct (res (delete_cluster "kind" w)) as [[]|e]; [|reflexivity].
  rewrite res_bind, delete_registry_res. reflexivity.
Qed.

(** C10.  In a run of [cleanup] whose registry probe answers with a
    container that is there and whose [State.Running] is false, neither
    [docker stop] nor [docker rm] is executed for the registry, and the
    run ends normally. *)
Theorem cleanup_keeps_stopped_registry (w : world E) (out err : string)
    (d : list (string * Py.value)) (rest : list Py.value)
    (st : list (string * Py.value)) :
  In (Spawn (invocation_of "docker inspect kind-registry" false)
        (Exited 0 out err))
     (events (cleanup w)) ->
  json_loads E out = Some (Py.VList (Py.VDict d :: rest)) ->
  Py.lookup "State" d = Some (Py.VDict st) ->
  Py.lookup "Running" st = Some (Py.VBool false) ->
  issued (invocation_of "docker stop kind-registry" false) (events (cleanup w))
    = false
  /\ issued (invocation_of "docker rm kind-registry" false) (events (cleanup w))
     = false
  /\ res (cleanup w) = Ok tt.
Proof.
  intros Hin Hj Hstate Hrun.
  destruct (delete_cluster_leaves_registry w) as (Hc1 & Hc2 & Hc3).
  rewrite cleanup_res. rewrite cleanup_events in Hin |- *.
  destruct Hin as [Hin|Hin]; [discriminate Hin|].
  apply in_app_or in Hin. destruct Hin as [Hin|Hin].
  { apply In_Spawn_issued in Hin. congruence. }
  destruct (res (delete_cluster "kind" w)) as [[]|e]; [|contradiction].
  apply in_app_or in Hin. destruct Hin as [Hin|[Hin|[]]]; [|discriminate Hin].
  apply registry_probe_answer in Hin.
  destruct (spawn E (invocation_of "docker inspect kind-registry" false)
              (final (delete_cluster "kind" w))) as [p w'] eqn:Hs.
  simpl in Hin. subst p.
  rewrite (delete_registry_not_running _ _ _ _ _ _ _ Hs Hj Hstate Hrun).
  change (Invoke "cleanup" :: ?a) with ([Invoke "cleanup"] ++ a)%list.
  rewrite !issued_app, Hc2, Hc3.
  repeat split; vm_compute; reflexivity.
Qed.


(** The cluster block ends normally when its listing succeeds and the
    deletion, if the listing calls for one, succeeds. *)
Lemma delete_cluster_ok (w w1 : world E) (out err : string) :
  spawn E (invocation_of "kind get clusters" false) w = (Exited 0 out err, w1) ->
  (Py.contains "kind" out = true ->
   exit_ok (fst (spawn E (invocation_of "kind delete cluster --name kind" false)
                   w1)) = true) ->
  res (delete_cluster "kind" w) = Ok tt.
Proof.
  intros Hs Hdel.
  unfold delete_cluster, run_command, subprocess_run, try_except, bind.
  run. destruct (Py.contains "kind" out) eqn:Hc; simp; [|reflexivity].
  specialize (Hdel eq_refl).
  destruct (spawn E (invocation_of "kind delete cluster --name kind" false) w1)
    as [[rc o e|name msg|] w2]; simpl in Hdel; try discriminate Hdel.
  run. reflexivity.
Qed.


End Cleanup.



Lemma cleanup_nothing_to_delete_witness :
  let w : world lab_host := mkLab [] NoContainer in
  spawn lab_host (invocation_of "kind get clusters" false) w
    = (Exited 0 EmptyString "No kind clusters found.", w)
  /\ Py.contains "kind" EmptyString = false
  /\ spawn lab_host (invocation_of "docker inspect kind-registry" false) w
     = (Exited 1 "[]" "Error: No such object: kind-registry", w)
  /\ res (cleanup w) = Ok tt
  /\ spawned (events (cleanup w))
     = [invocation_of "kind get clusters" false;
        invocation_of "docker inspect kind-registry" false].
Proof.
  intros w.
  pose proof (cleanup_nothing_to_delete lab_host w w w EmptyString
                "No kind clusters found."
                (Exited 1 "[]" "Error: No such object: kind-registry")
                eq_refl eq_refl eq_refl eq_refl) as (Hres & _ & Hsp & _).
  split; [reflexivity|]. split; [reflexivity|]. split; [reflexivity|].
  split; [exact Hres | exact Hsp].
Defined.

Lemma cleanup_keeps_stopped_registry_witness :
  let w : world lab_host := mkLab ["kind"] Stopped in
  In (Spawn (invocation_of "docker inspect kind-registry" false)
        (Exited 0 (inspect_doc false) EmptyString))
     (events (cleanup w))
  /\ issued (invocation_of "docker stop kind-registry" false) (events (cleanup w))
     = false
  /\ issued (invocation_of "docker rm kind-registry" false) (events (cleanup w))
     = false
  /\ res (cleanup w) = Ok tt
  /\ registry (final (cleanup w)) = Stopped.
Proof.
  intros w.
  assert (Hin : In (Spawn (invocation_of "docker inspect kind-registry" false)
                      (Exited 0 (inspect_doc false) EmptyString))
                   (events (cleanup w))).
  { vm_compute. tauto. }
  split; [exact Hin|].
  pose proof (cleanup_keeps_stopped_registry lab_host w (inspect_doc false)
                EmptyString
                [("State", Py.VDict [("Running", Py.VBool false)])] []
                [("Running", Py.VBool false)]
                Hin eq_refl eq_refl eq_refl) as (H1 & H2 & H3).
  split; [exact H1|]. split; [exact H2|]. split; [exact H3|].
  vm_compute. reflexivity.
Defined.


(** * The prerequisite check *)

Section Prerequisites.

Variable E : Env.

Lemma prefix_empty (s : string) : String.prefix EmptyString s = true.
Proof. destruct s; reflexivity. Qed.

Lemma reports_app (a b : list event) :
  reports (a ++ b) = (reports a ++ reports b)%list.
Proof. unfold reports. rewrite echoed_app. apply filter_app. Qed.

Lemma check_tool_resolves (tool : string) (w : world E) :
  resolves E tool ->
  res (check_tool tool w) = Ok tt /\ reports (events (check_tool tool w)) = [].
Proof.
  intros Hr. specialize (Hr w).
  unfold check_tool, run_command, subprocess_run, try_except, bind.
  destruct (spawn E (invocation_of ("which " ++ tool) false) w)
    as [[rc out err|name msg|] w1]; simpl in Hr; try discriminate Hr.
  run. split; reflexivity.
Qed.

Lemma check_tool_missing (tool : string) (w : world E) :
  missing E tool ->
  res (check_tool tool w) = Raise Abort
  /\ reports (events (check_tool tool w)) = [not_installed tool].
Proof.
  intros Hm. specialize (Hm w).
  unfold check_tool, run_command, subprocess_run, try_except, bind.
  destruct (spawn E (invocation_of ("which " ++ tool) false) w)
    as [[rc out err|name msg|] w1]; simpl in Hm; try discriminate Hm;
    run; unfold reports; simp; rewrite prefix_empty; split; reflexivity.
Qed.

Lemma check_all_resolve (tools : list string) :
  (forall t, In t tools -> resolves E t) ->
  forall w : world E,
    res (for_each tools check_tool w) = Ok tt
    /\ reports (events (for_each tools check_tool w)) = [].
Proof.
  induction tools as [|t tools IH]; intros Hall w.
  - split; reflexivity.
  - cbn [for_each]. rewrite res_bind, events_bind, reports_app.
    destruct (check_tool_resolves t w (Hall t (or_introl eq_refl))) as [-> ->].
    apply IH. intros t' Ht'. apply Hall. right. exact Ht'.
Qed.

Lemma check_first_missing (before : list string) (tool : string)
    (rest : list string) :
  (forall t, In t before -> resolves E t) ->
  missing E tool ->
  forall w : world E,
    res (for_each (before ++ tool :: rest) check_tool w) = Raise Abort
    /\ reports (events (for_each (before ++ tool :: rest) check_tool w))
       = [not_installed tool].
Proof.
  induction before as [|t before IH]; intros Hall Hm w.
  - cbn [app for_each]. rewrite res_bind, events_bind, reports_app.
    destruct (check_tool_missing tool w Hm) as [-> ->].
    split; reflexivity.
  - cbn [app for_each]. rewrite res_bind, events_bind, reports_app.
    destruct (check_tool_resolves t w (Hall t (or_introl eq_refl))) as [-> ->].
    apply IH; [|exact Hm]. intros t' Ht'. apply Hall. right. exact Ht'.
Qed.

(** C5.  When each of [kind], [docker], [kubectl] and [helm] resolves,
    [check_prerequisites] ends normally.  When one of them is missing
    and the other three resolve, it raises [Abort], and the one error
    line it reports names that tool. *)
Theorem check_prerequisites_outcome :
  ((forall t, In t required_tools -> resolves E t) ->
   forall w : world E, res (check_prerequisites w) = Ok tt)
  /\ (forall tool,
        In tool required_tools ->
        missing E tool ->
        (forall t, In t required_tools -> t <> tool -> resolves E t) ->
        forall w : world E,
          res (check_prerequisites w) = Raise Abort
          /\ reports (events (check_prerequisites w)) = [not_installed tool]).
Proof.
  split.
  - intros Hall w. apply (check_all_resolve required_tools Hall w).
  - intros tool Hin Hm Hothers w. unfold check_prerequisites.
    assert (Hres : forall t, In t required_tools -> t <> tool -> resolves E t)
      by exact Hothers.
    unfold required_tools in Hin, Hres |- *.
    destruct Hin as [<-|[<-|[<-|[<-|[]]]]].
    + apply (check_first_missing [] "kind"); [|exact Hm].
      intros t [].
    + apply (check_first_missing ["kind"] "docker"); [|exact Hm].
      intros t [<-|[]]; apply Hres; simpl; auto; discriminate.
    + apply (check_first_missing ["kind"; "docker"] "kubectl"); [|exact Hm].
      intros t [<-|[<-|[]]]; apply Hres; simpl; auto; discriminate.
    + apply (check_first_missing ["kind"; "docker"; "kubectl"] "helm");
        [|exact Hm].
      intros t [<-|[<-|[<-|[]]]]; apply Hres; simpl; auto; discriminate.
Qed.

End Prerequisites.


(** The theorem on a host without [helm]. *)
Lemma check_prerequisites_outcome_witness :
  let E := fixed_host [Argv ["which"; "helm"]] silent no_json in
  In "helm" required_tools
  /\ missing E "helm"
  /\ (forall t, In t required_tools -> t <> "helm" -> resolves E t)
  /\ res (check_prerequisites (E := E) tt) = Raise Abort
  /\ reports (events (check_prerequisites (E := E) tt))
     = ["Error: helm is not installed or not in PATH"].
Proof.
  intros E.
  assert (Hm : missing E "helm") by (intros []; reflexivity).
  assert (Ho : forall t, In t required_tools -> t <> "helm" -> resolves E t).
  { intros t [<-|[<-|[<-|[<-|[]]]]] Hne [];
      first [reflexivity | contradiction Hne; reflexivity]. }
  split; [simpl; auto|]. split; [exact Hm|]. split; [exact Ho|].
  apply (proj2 (check_prerequisites_outcome E) "helm");
    [simpl; auto | exact Hm | exact Ho].
Defined.

(** * Configuring the registry *)

Section ConfigureRegistry.

Variable E : Env.

Lemma configure_registry_split (w : world E) :
  configure_registry w = bind prepare_nodes (fun _ => publish_registry) w.
Proof.
  unfold configure_registry, prepare_nodes. cbv zeta.
  fold (@publish_registry E).
  unfold bind at 1 2 3 4 5 6 7 8.
  cbn [invoke echo].
  destruct (run_command "kind get nodes" false w) as [[a|e] w1 ev];
    [|reflexivity].
  destruct (for_each _ _ w1) as [[[]|e] w2 ev2]; [|reflexivity].
  cbn [after app].
  destruct (publish_registry w2) as [x w3 ev3]. simpl.
  rewrite app_assoc. reflexivity.
Qed.

(** What comes before the network connection never runs the connect
    command. *)
Lemma configure_node_no_connect (node : string) (w : world E) :
  issued (invocation_of "docker network connect kind kind-registry" true)
    (events (configure_node "kind-registry" "5001" node w)) = false.
Proof.
  unfold configure_node, run_command, subprocess_run, try_except, bind.
  run_all; vm_compute; reflexivity.
Qed.

Lemma nodes_loop_no_connect (nodes : list string) (w : world E) :
  issued (invocation_of "docker network connect kind kind-registry" true)
    (events (for_each nodes (configure_node "kind-registry" "5001") w)) = false.
Proof.
  revert w. induction nodes as [|node nodes IH]; intros w; [reflexivity|].
  cbn [for_each]. rewrite events_bind, issued_app, configure_node_no_connect.
  destruct (res (configure_node "kind-registry" "5001" node w)) as [[]|e];
    [apply IH | reflexivity].
Qed.

Lemma prepare_nodes_no_connect (w : world E) :
  issued (invocation_of "docker network connect kind kind-registry" true)
    (events (prepare_nodes w)) = false.
Proof.
  unfold prepare_nodes.
  rewrite events_bind. cbn [invoke res final events].
  rewrite events_bind. cbn [echo res final events].
  rewrite events_bind, !issued_app.
  assert (Hlist : issued
            (invocation_of "docker network connect kind kind-registry" true)
            (events (run_command "kind get nodes" false w)) = false).
  { unfold run_command, subprocess_run, try_except, bind.
    run_all; vm_compute; reflexivity. }
  rewrite Hlist.
  destruct (res (run_command "kind get nodes" false w)) as [listing|e];
    [|reflexivity].
  rewrite nodes_loop_no_connect. reflexivity.
Qed.

(** From the network connection on: when the connection fails, the
    handler's line, the write of the document and, the write done, the
    [kubectl apply] follow. *)
Lemma publish_after_failed_connect (w : world E) (p : proc_result) :
  In (Spawn (invocation_of "docker network connect kind kind-registry" true) p)
     (events (publish_registry w)) ->
  exit_ok p = false ->
  exists (rest : list event) (wr : write_result),
    events (publish_registry w)
    = Spawn (invocation_of "docker network connect kind kind-registry" true) p
      :: rest
    /\ In (Echo "Registry already connected to network") rest
    /\ In (Write "registry-config.yaml" (config_map "5001") wr) rest
    /\ (wr = Written ->
        exists p',
          In (Spawn (invocation_of "kubectl apply -f registry-config.yaml" false)
                p') rest).
Proof.
  unfold publish_registry, connect_registry, open_write, run_command,
    subprocess_run, try_except, bind.
  run_all; intros Hin Hfail; vm_compute in Hin;
    repeat (destruct Hin as [Hin|Hin]);
    try contradiction; try discriminate Hin;
    injection Hin as <-; simpl in Hfail; try congruence;
    do 2 eexists; (split; [reflexivity|]); simpl;
    (split; [tauto|]); (split; [eauto 10|]);
    intros Hw; try discriminate Hw; eexists; eauto 10.
Qed.

(** C6.  In a run of [configure_registry] in which the network
    connection of the registry fails (a non-zero exit status, or no
    process at all), the step goes on: after the failed command come the
    handler's line and the write of the registry-hosting document, and,
    the document written, [kubectl apply] on it. *)
Theorem configure_registry_tolerates_connect_failure (w : world E)
    (p : proc_result) :
  In (Spawn (invocation_of "docker network connect kind kind-registry" true) p)
     (events (configure_registry w)) ->
  exit_ok p = false ->
  exists (before rest : list event) (wr : write_result),
    events (configure_registry w)
    = (before
       ++ Spawn (invocation_of "docker network connect kind kind-registry" true)
            p
          :: rest)%list
    /\ In (Echo "Registry already connected to network") rest
    /\ In (Write "registry-config.yaml" (config_map "5001") wr) rest
    /\ (wr = Written ->
        exists p',
          In (Spawn (invocation_of "kubectl apply -f registry-config.yaml" false)
                p') rest).
Proof.
  intros Hin Hfail.
  rewrite configure_registry_split in Hin |- *.
  rewrite events_bind in Hin |- *.
  apply in_app_or in Hin. destruct Hin as [Hin|Hin].
  { apply In_Spawn_issued in Hin.
    rewrite prepare_nodes_no_connect in Hin. discriminate Hin. }
  destruct (res (prepare_nodes w)) as [[]|e]; [|contradiction].
  destruct (publish_after_failed_connect _ p Hin Hfail)
    as (rest & wr & Hev & Hecho & Hwrite & Happly).
  exists (events (prepare_nodes w)), rest, wr.
  rewrite Hev. repeat split; assumption.
Qed.

End ConfigureRegistry.


Lemma configure_registry_tolerates_connect_failure_witness :
  let E := connected_host in
  let connect :=
    Spawn (invocation_of "docker network connect kind kind-registry" true)
      (Exited 1 EmptyString complaint) in
  In connect (events (configure_registry (E := E) tt))
  /\ exists (before rest : list event) (wr : write_result),
       events (configure_registry (E := E) tt) = (before ++ connect :: rest)%list
       /\ In (Echo "Registry already connected to network") rest
       /\ In (Write "registry-config.yaml" (config_map "5001") wr) rest
       /\ (wr = Written ->
           exists p',
             In (Spawn (invocation_of "kubectl apply -f registry-config.yaml"
                          false) p') rest).
Proof.
  intros E connect.
  assert (Hin : In connect (events (configure_registry (E := E) tt))).
  { vm_compute. tauto. }
  split; [exact Hin|].
  exact (configure_registry_tolerates_connect_failure E tt
           (Exited 1 EmptyString complaint) Hin eq_refl).
Defined.

(** * Installing the deployment controller *)

Section InstallArgocd.

Variable E : Env.

(** C2 (the code at the input the claim is about).  When the namespace
    probe [kubectl get namespace argocd] exits with a non-zero status,
    [install_argocd] raises [Abort] right after it: [run_command] has
    turned the [CalledProcessError] into [Abort], so the clause of
    [create_namespace_if_not_exists] that creates the namespace is not
    the one taken.  The probe is the only command executed. *)
Theorem install_argocd_missing_namespace (w w1 : world E) (rc : Z)
    (out err : string) :
  spawn E (invocation_of "kubectl get namespace argocd" false) w
    = (Exited rc out err, w1) ->
  rc <> 0%Z ->
  install_argocd w
  = mkRun (Raise Abort) w1
      [Invoke "install_argocd";
       Echo "Installing ArgoCD...";
       Spawn (invocation_of "kubectl get namespace argocd" false)
         (Exited rc out err);
       Echo "Error executing command: kubectl get namespace argocd";
       Echo ("Error output: " ++ err);
       Echo "Unexpected error: "].
Proof.
  intros Hs Hrc. apply Z.eqb_neq in Hrc.
  unfold install_argocd, create_namespace_if_not_exists, run_command,
    subprocess_run, try_except, bind.
  run. reflexivity.
Qed.

(** C7.  When the namespace probe exits with status zero,
    [install_argocd] never executes [kubectl create namespace argocd]
    and always executes the [kubectl apply] of the manifest; and when
    the apply, the rollout wait and the service patch exit with status
    zero, it executes the retrieval of the initial secret and ends
    normally, whatever the retrieval does. *)
Theorem install_argocd_existing_namespace (w w1 : world E) (out err : string) :
  spawn E (invocation_of "kubectl get namespace argocd" false) w
    = (Exited 0 out err, w1) ->
  issued (invocation_of "kubectl create namespace argocd" false)
    (events (install_argocd w)) = false
  /\ issued
       (invocation_of
          "kubectl apply -f https://raw.githubusercontent.com/argoproj/argo-cd/stable/manifests/install.yaml -n argocd"
          false)
       (events (install_argocd w)) = true
  /\ (forall (w2 w3 w4 : world E) (o2 e2 o3 e3 o4 e4 : string),
        spawn E
          (invocation_of
             "kubectl apply -f https://raw.githubusercontent.com/argoproj/argo-cd/stable/manifests/install.yaml -n argocd"
             false) w1
          = (Exited 0 o2 e2, w2) ->
        spawn E
          (invocation_of
             "kubectl -n argocd rollout status deployment/argocd-server" false)
          w2
          = (Exited 0 o3 e3, w3) ->
        spawn E
          (invocation_of
             ("kubectl patch svc argocd-server -n argocd -p '"
              ++ patch_data_json ++ "'") true) w3
          = (Exited 0 o4 e4, w4) ->
        issued
          (invocation_of
             "kubectl -n argocd get secret argocd-initial-admin-secret -o jsonpath='{.data.password}' | base64 -d"
             true)
          (events (install_argocd w)) = true
        /\ res (install_argocd w) = Ok tt).
Proof.
  intros Hs. split; [|split].
  - unfold install_argocd, create_namespace_if_not_exists, retrieve_password,
      run_command, subprocess_run, try_except, bind.
    run. run_all; vm_compute; reflexivity.
  - unfold install_argocd, create_namespace_if_not_exists, retrieve_password,
      run_command, subprocess_run, try_except, bind.
    run. run_all; vm_compute; reflexivity.
  - intros w2 w3 w4 o2 e2 o3 e3 o4 e4 Happly Hroll Hpatch.
    cbn -[invocation_of] in Hpatch.
    unfold install_argocd, create_namespace_if_not_exists, retrieve_password,
      run_command, subprocess_run, try_except, bind.
    run. run_all; split; vm_compute; reflexivity.
Qed.

End InstallArgocd.

Lemma install_argocd_missing_namespace_witness :
  let E := fixed_host [invocation_of "kubectl get namespace argocd" false]
             silent no_json in
  spawn E (invocation_of "kubectl get namespace argocd" false) tt
    = (Exited 1 EmptyString complaint, tt)
  /\ (1 <> 0)%Z
  /\ res (install_argocd (E := E) tt) = Raise Abort
  /\ spawned (events (install_argocd (E := E) tt))
     = [invocation_of "kubectl get namespace argocd" false].
Proof.
  intros E. split; [reflexivity|]. split; [discriminate|].
  rewrite (install_argocd_missing_namespace E tt tt 1 EmptyString complaint
             eq_refl ltac:(discriminate)).
  split; reflexivity.
Defined.

Lemma install_argocd_existing_namespace_witness :
  let E := fair_host in
  spawn E (invocation_of "kubectl get namespace argocd" false) tt
    = (Exited 0 EmptyString EmptyString, tt)
  /\ issued (invocation_of "kubectl create namespace argocd" false)
       (events (install_argocd (E := E) tt)) = false
  /\ issued
       (invocation_of
          "kubectl -n argocd get secret argocd-initial-admin-secret -o jsonpath='{.data.password}' | base64 -d"
          true)
       (events (install_argocd (E := E) tt)) = true
  /\ res (install_argocd (E := E) tt) = Ok tt.
Proof.
  intros E.
  destruct (install_argocd_existing_namespace E tt tt EmptyString EmptyString
              eq_refl) as (Hcreate & _ & Hrest).
  destruct (Hrest tt tt tt EmptyString EmptyString EmptyString EmptyString
              EmptyString EmptyString eq_refl eq_refl eq_refl)
    as (Hsecret & Hres).
  split; [reflexivity|]. split; [exact Hcreate|].
  split; [exact Hsecret | exact Hres].
Defined.

(** * The pipeline *)

Section Pipeline.

Variable E : Env.

Lemma run_step_ok (step_name : string) (command : M E unit) (w : world E) :
  res (command w) = Ok tt ->
  run_step step_name command w
  = mkRun (Ok true) (final (command w))
      (Echo (starting step_name) :: events (command w)).
Proof.
  intros Hok. unfold run_step, try_except, bind. cbn [echo].
  destruct (command w) as [[[]|e] w1 ev]; simpl in Hok; [|discriminate Hok].
  simpl. rewrite app_nil_r. reflexivity.
Qed.

Lemma run_step_abort (step_name : string) (command : M E unit) (w : world E) :
  res (command w) = Raise Abort ->
  run_step step_name command w
  = mkRun (Ok false) (final (command w))
      (Echo (starting step_name)
       :: events (command w) ++ [Echo (failed_during step_name)])%list.
Proof.
  intros Hab. unfold run_step, try_except, bind. cbn [echo].
  destruct (command w) as [[[]|e] w1 ev]; simpl in Hab; [discriminate Hab|].
  injection Hab as ->. reflexivity.
Qed.

(** Each step function enters itself and no other command. *)
Lemma check_invoked (w : world E) : invoked (events (check w)) = ["check"].
Proof.
  unfold check, check_prerequisites, required_tools, for_each, check_tool,
    run_command, subprocess_run, try_except, bind.
  run_all; reflexivity.
Qed.

Lemma cleanup_invoked (w : world E) : invoked (events (cleanup w)) = ["cleanup"].
Proof.
  unfold cleanup, delete_cluster, delete_registry, stop_running_registry,
    loads, subscript, run_command, subprocess_run, try_except, bind.
  run_all; reflexivity.
Qed.

Lemma setup_registry_invoked (w : world E) :
  invoked (events (setup_registry w)) = ["setup_registry"].
Proof.
  unfold setup_registry, run_command, subprocess_run, try_except, bind.
  run_all; reflexivity.
Qed.

Lemma create_cluster_invoked (w : world E) :
  invoked (events (create_cluster w)) = ["create_cluster"].
Proof.
  unfold create_cluster, open_write, run_command, subprocess_run, try_except,
    bind.
  run_all; reflexivity.
Qed.

Lemma nodes_loop_invoked (nodes : list string) (w : world E) :
  invoked (events (for_each nodes (configure_node "kind-registry" "5001") w))
  = [].
Proof.
  revert w. induction nodes as [|node nodes IH]; intros w; [reflexivity|].
  cbn [for_each]. rewrite events_bind, invoked_app.
  assert (Hnode : invoked
            (events (configure_node "kind-registry" "5001" node w)) = []).
  { unfold configure_node, run_command, subprocess_run, try_except, bind.
    run_all; reflexivity. }
  rewrite Hnode.
  destruct (res (configure_node "kind-registry" "5001" node w)) as [[]|e];
    [apply IH | reflexivity].
Qed.

Lemma configure_registry_invoked (w : world E) :
  invoked (events (configure_registry w)) = ["configure_registry"].
Proof.
  rewrite configure_registry_split, events_bind, invoked_app.
  assert (Hpub : forall w1 : world E,
            invoked (events (publish_registry w1)) = []).
  { intros w1.
    unfold publish_registry, connect_registry, open_write, run_command,
      subprocess_run, try_except, bind.
    run_all; reflexivity. }
  assert (Hprep : invoked (events (prepare_nodes w)) = ["configure_registry"]).
  { unfold prepare_nodes.
    rewrite events_bind. cbn [invoke res final events].
    rewrite events_bind. cbn [echo res final events].
    rewrite events_bind. cbn [app invoked]. rewrite invoked_app.
    assert (Hlist : invoked (events (run_command "kind get nodes" false w)) = []).
    { unfold run_command, subprocess_run, try_except, bind.
      run_all; reflexivity. }
    rewrite Hlist.
    destruct (res (run_command "kind get nodes" false w)) as [listing|e];
      [|reflexivity].
    rewrite nodes_loop_invoked. reflexivity. }
  rewrite Hprep.
  destruct (res (prepare_nodes w)) as [[]|e]; [|reflexivity].
  rewrite Hpub. reflexivity.
Qed.

Lemma install_cilium_invoked (w : world E) :
  invoked (events (install_cilium w)) = ["install_cilium"].
Proof.
  unfold install_cilium, run_command, subprocess_run, try_except, bind.
  run_all; reflexivity.
Qed.

Lemma install_multus_invoked (w : world E) :
  invoked (events (install_multus w)) = ["install_multus"].
Proof.
  unfold install_multus, run_command, subprocess_run, try_except, bind.
  run_all; reflexivity.
Qed.

Lemma verify_invoked (w : world E) : invoked (events (verify w)) = ["verify"].
Proof.
  unfold verify, run_command, subprocess_run, try_except, bind.
  run_all; reflexivity.
Qed.

(** One turn of the loop, by what the step does. *)
Lemma run_steps_cons_ok (step_name : string) (command : M E unit)
    (rest : list (string * M E unit)) (w : world E) :
  res (command w) = Ok tt ->
  run_steps ((step_name, command) :: rest) w
  = after (Echo (starting step_name) :: events (command w))
      (run_steps rest (final (command w))).
Proof.
  intros Hok. cbn [run_steps]. unfold bind.
  rewrite (run_step_ok _ _ _ Hok). reflexivity.
Qed.

Lemma run_steps_cons_abort (step_name : string) (command : M E unit)
    (rest : list (string * M E unit)) (w : world E) :
  res (command w) = Raise Abort ->
  run_steps ((step_name, command) :: rest) w
  = mkRun (Ok tt) (final (command w))
      (Echo (starting step_name)
       :: events (command w) ++ [Echo (failed_during step_name)])%list.
Proof.
  intros Hab. cbn [run_steps]. unfold bind.
  rewrite (run_step_abort _ _ _ Hab). cbn [after ret].
  rewrite app_nil_r. reflexivity.
Qed.

(** A step list whose steps all end normally is run to its end, step
    after step. *)
Lemma run_steps_all_succeed (steps : list (string * M E unit))
    (tags : list string) :
  Forall2 (fun s t => forall w : world E, invoked (events (snd s w)) = [t])
    steps tags ->
  forall w : world E,
    steps_succeed steps w ->
    res (run_steps steps w) = Ok tt
    /\ invoked (events (run_steps steps w)) = tags
    /\ exists before,
         events (run_steps steps w)
         = (before
            ++ [Echo (Py.nl ++ done_mark
                      ++ " Complete setup finished successfully!")])%list.
Proof.
  induction 1 as [|[step_name command] tag steps tags Htag _ IH];
    intros w Hall.
  - repeat split. exists []. reflexivity.
  - destruct Hall as [Hok Hrest]. cbn [snd] in Htag.
    destruct (IH _ Hrest) as (Hres & Hinv & before & Hev).
    rewrite (run_steps_cons_ok _ _ _ _ Hok).
    rewrite res_after, events_after, Hres, Hev. split; [reflexivity|].
    split.
    + rewrite <- Hev. cbn [app invoked]. rewrite invoked_app, Htag, Hinv.
      reflexivity.
    + exists (Echo (starting step_name) :: events (command w) ++ before)%list.
      cbn [app]. rewrite app_assoc. reflexivity.
Qed.

Lemma commands_invoke_themselves :
  Forall2 (fun s t => forall w : world E, invoked (events (snd s w)) = [t])
    commands step_functions.
Proof.
  unfold commands, step_functions.
  repeat constructor; cbn [snd].
  - apply check_invoked.
  - apply cleanup_invoked.
  - apply setup_registry_invoked.
  - apply create_cluster_invoked.
  - apply configure_registry_invoked.
  - apply install_cilium_invoked.
  - apply install_multus_invoked.
  - apply verify_invoked.
Qed.


(** How the loop halts: when the steps before a step end normally and
    that step raises [Abort], the loop returns after the line that names
    the step, and no later step is entered. *)
Lemma run_steps_stops_at_abort (before : list (string * M E unit))
    (tags : list string) (step_name : string) (command : M E unit)
    (rest : list (string * M E unit)) :
  Forall2 (fun s t => forall w : world E, invoked (events (snd s w)) = [t])
    before tags ->
  forall w : world E,
    steps_succeed before w ->
    res (command (world_after before w)) = Raise Abort ->
    res (run_steps (before ++ (step_name, command) :: rest) w) = Ok tt
    /\ invoked (events (run_steps (before ++ (step_name, command) :: rest) w))
       = (tags ++ invoked (events (command (world_after before w))))%list
    /\ last (events (run_steps (before ++ (step_name, command) :: rest) w))
         (Invoke EmptyString)
       = Echo (failed_during step_name).
Proof.
  induction 1 as [|[name0 command0] tag before tags Htag _ IH];
    intros w Hall Habort.
  - cbn [app world_after] in *.
    rewrite (run_steps_cons_abort _ _ _ _ Habort). cbn [res events].
    split; [reflexivity|]. split.
    + cbn [invoked]. rewrite invoked_app, app_nil_r. reflexivity.
    + rewrite app_comm_cons. apply last_last.
  - destruct Hall as [Hok Hrest]. cbn [snd] in Htag.
    cbn [world_after] in Habort.
    destruct (IH _ Hrest Habort) as (Hres & Hinv & Hlast).
    cbn [app world_after].
    rewrite (run_steps_cons_ok _ _ _ _ Hok).
    rewrite res_after, events_after. split; [exact Hres|]. split.
    + cbn [app invoked]. rewrite invoked_app, Htag, Hinv. reflexivity.
    + set (tl := events (run_steps _ _)) in *.
      assert (Hne : tl <> []).
      { intros Heq. rewrite Heq in Hlast. discriminate Hlast. }
      cbn [app]. rewrite app_comm_cons.
      destruct tl as [|x tl]; [contradiction|].
      rewrite <- Hlast.
      generalize (Echo (starting name0) :: events (command0 w)).
      intros l. induction l as [|y l IHl]; [reflexivity|].
      cbn [app]. cbn [app] in IHl. rewrite <- IHl.
      destruct (l ++ x :: tl)%list eqn:Hl; [|reflexivity].
      destruct l; discriminate Hl.
Qed.

(** [check] turns the [Abort] of a failed prerequisite check into a
    line, so it always ends normally. *)
Lemma check_never_raises (w : world E) : res (check w) = Ok tt.
Proof.
  unfold check, check_prerequisites, required_tools, for_each, check_tool,
    run_command, subprocess_run, try_except, bind.
  run_all; reflexivity.
Qed.

Lemma run_steps_enters_first (step_name : string) (command : M E unit)
    (rest : list (string * M E unit)) (w : world E) :
  exists tl,
    events (run_steps ((step_name, command) :: rest) w)
    = (Echo (starting step_name) :: events (command w) ++ tl)%list.
Proof.
  destruct (res (command w)) as [[]|e] eqn:Hres.
  - rewrite (run_steps_cons_ok _ _ _ _ Hres), events_after.
    exists (events (run_steps rest (final (command w)))). reflexivity.
  - destruct e.
    + rewrite (run_steps_cons_abort _ _ _ _ Hres).
      exists [Echo (failed_during step_name)]. reflexivity.
    + exists []. cbn [run_steps]. unfold bind, run_step, try_except, bind.
      cbn [echo]. destruct (command w) as [r w1 ev]. simpl in Hres. subst r.
      cbn [after app]. rewrite !app_nil_r. reflexivity.
    + exists []. cbn [run_steps]. unfold bind, run_step, try_except, bind.
      cbn [echo]. destruct (command w) as [r w1 ev]. simpl in Hres. subst r.
      cbn [after app]. rewrite !app_nil_r. reflexivity.
    + exists []. cbn [run_steps]. unfold bind, run_step, try_except, bind.
      cbn [echo]. destruct (command w) as [r w1 ev]. simpl in Hres. subst r.
      cbn [after app]. rewrite !app_nil_r. reflexivity.
Qed.


End Pipeline.



(** On the host without [kind], the whole run: [check] reports the failed
    prerequisites check, [cleanup] is entered all the same, and its first
    command cannot be started, an error that [setup_all] does not handle.
    The step Prerequisites Check is never named as the failing one. *)
Example setup_all_without_kind :
  res (setup_all (E := no_kind_host) tt)
  = Raise (PyError "FileNotFoundError"
             "[Errno 2] No such file or directory: 'kind'")
  /\ invoked (events (setup_all (E := no_kind_host) tt))
     = ["setup_all"; "check"; "cleanup"]
  /\ existsb (String.eqb (failed_during "Prerequisites Check"))
       (echoed (events (setup_all (E := no_kind_host) tt))) = false.
Proof. vm_compute. repeat split. Qed.

(** On a host where only the namespace probe fails, the whole run of
    [install_argocd]: nothing is created and nothing is applied. *)
Example install_argocd_without_namespace :
  let E := fixed_host [invocation_of "kubectl get namespace argocd" false]
             silent no_json in
  res (install_argocd (E := E) tt) = Raise Abort
  /\ issued (invocation_of "kubectl create namespace argocd" false)
       (events (install_argocd (E := E) tt)) = false
  /\ echoed (events (install_argocd (E := E) tt))
     = ["Installing ArgoCD...";
        "Error executing command: kubectl get namespace argocd";
        "Error output: failed";
        "Unexpected error: "].
Proof. vm_compute. repeat split. Qed.

(** * Further properties of the command runner *)

Section CommandRunnerMore.

Variable E : Env.

(** X1.  A command that cannot be started, or whose wait is interrupted
    from the keyboard, makes [run_command] raise that very exception
    ([PyError] for the [OSError], [KeyboardInterrupt]) and echo nothing:
    only a non-zero exit status is turned into [Abort]. *)
Theorem run_command_other_failures_pass (command : string) (shell : bool)
    (w w' : world E) (p : proc_result) :
  spawn E (invocation_of command shell) w = (p, w') ->
  match p with
  | Exited _ _ _ => True
  | NotStarted name msg =>
      run_command command shell w
      = mkRun (Raise (PyError name msg)) w'
          [Spawn (invocation_of command shell) p]
  | Interrupted =>
      run_command command shell w
      = mkRun (Raise KeyboardInterrupt) w'
          [Spawn (invocation_of command shell) p]
  end.
Proof.
  intros Hs. destruct p as [rc out err|name msg|]; [exact I| |].
  - apply run_command_not_started. exact Hs.
  - apply run_command_interrupted. exact Hs.
Qed.

(** X2.  Whatever the process does, [run_command] never lets a
    [CalledProcessError] out. *)
Theorem run_command_never_raises_called_process_error (command : string)
    (shell : bool) (w : world E) :
  raises_called_process_error (res (run_command command shell w)) = false.
Proof.
  unfold run_command, subprocess_run, try_except, bind.
  run_all; reflexivity.
Qed.

End CommandRunnerMore.

Lemma run_command_other_failures_pass_witness :
  spawn no_kind_host (invocation_of "kind get clusters" false) tt
    = (NotStarted "FileNotFoundError"
         "[Errno 2] No such file or directory: 'kind'", tt)
  /\ run_command (E := no_kind_host) "kind get clusters" false tt
     = mkRun
         (Raise (PyError "FileNotFoundError"
                   "[Errno 2] No such file or directory: 'kind'"))
         tt
         [Spawn (invocation_of "kind get clusters" false)
            (NotStarted "FileNotFoundError"
               "[Errno 2] No such file or directory: 'kind'")].
Proof.
  split; [reflexivity|].
  exact (run_command_other_failures_pass no_kind_host "kind get clusters"
           false tt tt _ eq_refl).
Defined.

(** ** Splitting a command into arguments *)

Lemma append_assoc (a b c : string) : (a ++ b) ++ c = a ++ (b ++ c).
Proof. induction a as [|x a IH]; simpl; [reflexivity|]. rewrite IH. reflexivity. Qed.

Lemma append_empty_r (a : string) : a ++ EmptyString = a.
Proof. induction a as [|x a IH]; simpl; [reflexivity|]. rewrite IH. reflexivity. Qed.

Lemma is_empty_append (a b : string) :
  Py.is_empty a = false -> Py.is_empty (a ++ b) = false.
Proof. destruct a; [discriminate | reflexivity]. Qed.

(** Reading a blank-free stretch only grows the current argument. *)
Lemma split_from_no_blank (word cur rest : string) :
  no_blank word = true ->
  Py.split_from cur (word ++ rest) = Py.split_from (cur ++ word) rest.
Proof.
  revert cur. induction word as [|c word IH]; intros cur Hw.
  - simpl. rewrite append_empty_r. reflexivity.
  - simpl in Hw. apply andb_prop in Hw. destruct Hw as [Hc Hw].
    apply negb_true_iff in Hc. simpl. rewrite Hc.
    rewrite (IH _ Hw), append_assoc. reflexivity.
Qed.

Lemma split_unwords (words : list string) :
  forallb is_word words = true ->
  Py.split (unwords words) = words.
Proof.
  unfold Py.split, unwords.
  induction words as [|word words IH]; intros Hw; [reflexivity|].
  simpl in Hw. apply andb_prop in Hw. destruct Hw as [Hword Hrest].
  unfold is_word in Hword. apply andb_prop in Hword.
  destruct Hword as [Hne Hnb]. apply negb_true_iff in Hne.
  destruct words as [|next words].
  - cbn [String.concat].
    rewrite <- (append_empty_r word) at 1.
    rewrite (split_from_no_blank _ _ _ Hnb). simpl. rewrite Hne. reflexivity.
  - change (String.concat " " (word :: next :: words))
      with (word ++ " " ++ String.concat " " (next :: words)).
    rewrite (split_from_no_blank _ _ _ Hnb). cbn [append Py.split_from].
    change (Py.isspace " ") with true. cbv beta iota. rewrite Hne.
    rewrite (IH Hrest). reflexivity.
Qed.



(** * Further properties of the namespace helper and of the checks *)

Section ChecksMore.

Variable E : Env.

(** X4.  [create_namespace_if_not_exists] executes the probe
    [kubectl get namespace] and nothing else, whatever the probe's
    outcome: it never executes [kubectl create namespace].  It ends
    normally when the probe exits with status zero; otherwise it raises
    [Abort], or the [KeyboardInterrupt] of an interrupted probe. *)
Theorem create_namespace_only_probes (namespace : string) (w : world E) :
  let probe := invocation_of ("kubectl get namespace " ++ namespace) false in
  spawned (events (create_namespace_if_not_exists namespace w)) = [probe]
  /\ (exit_ok (fst (spawn E probe w)) = true ->
      res (create_namespace_if_not_exists namespace w) = Ok tt)
  /\ (exit_ok (fst (spawn E probe w)) = false ->
      res (create_namespace_if_not_exists namespace w) = Raise Abort
      \/ res (create_namespace_if_not_exists namespace w)
         = Raise KeyboardInterrupt).
Proof.
  intros probe. subst probe.
  unfold create_namespace_if_not_exists, run_command, subprocess_run,
    try_except, bind.
  run_all; (split; [reflexivity|]); unfold exit_ok; cbn [fst];
    split; intros Hp; rewrite ?Hp in *;
    first [reflexivity | discriminate | congruence
          | left; reflexivity | right; reflexivity].
Qed.

(** Looking a tool up is one execution of [which], whatever comes of
    it. *)
Lemma check_tool_spawned (tool : string) (w : world E) :
  spawned (events (check_tool tool w))
  = [invocation_of ("which " ++ tool) false].
Proof.
  unfold check_tool, run_command, subprocess_run, try_except, bind.
  run_all; reflexivity.
Qed.

Lemma check_loop_lookups (before : list string) (tool : string)
    (rest : list string) :
  (forall t, In t before -> resolves E t) ->
  missing E tool ->
  forall w : world E,
    spawned (events (for_each (before ++ tool :: rest) check_tool w))
    = map (fun t => invocation_of ("which " ++ t) false) (before ++ [tool]).
Proof.
  induction before as [|t before IH]; intros Hall Hm w.
  - cbn [app for_each map]. rewrite events_bind, spawned_app.
    rewrite check_tool_spawned.
    destruct (check_tool_missing E tool w Hm) as [-> _]. reflexivity.
  - cbn [app for_each map]. rewrite events_bind, spawned_app.
    rewrite check_tool_spawned.
    destruct (check_tool_resolves E t w (Hall t (or_introl eq_refl)))
      as [-> _].
    cbn [app]. f_equal. apply IH; [|exact Hm].
    intros t' Ht'. apply Hall. right. exact Ht'.
Qed.

(** X5.  [check_prerequisites] stops at the first tool of its list that
    is missing: it raises [Abort], the one error line it reports names
    that tool, and the tools after it are not looked up, whether they
    are there or not. *)
Theorem check_prerequisites_stops_at_first_missing (before : list string)
    (tool : string) (rest : list string) (w : world E) :
  required_tools = (before ++ tool :: rest)%list ->
  (forall t, In t before -> resolves E t) ->
  missing E tool ->
  res (check_prerequisites w) = Raise Abort
  /\ reports (events (check_prerequisites w)) = [not_installed tool]
  /\ spawned (events (check_prerequisites w))
     = map (fun t => invocation_of ("which " ++ t) false) (before ++ [tool]).
Proof.
  intros Hlist Hall Hm. unfold check_prerequisites. rewrite Hlist.
  destruct (check_first_missing E before tool rest Hall Hm w) as [Hres Hrep].
  split; [exact Hres|]. split; [exact Hrep|].
  apply check_loop_lookups; assumption.
Qed.

(** Whatever the lookups do, the check ends normally or raises
    [Abort]. *)
Lemma check_prerequisites_result (w : world E) :
  res (check_prerequisites w) = Ok tt
  \/ res (check_prerequisites w) = Raise Abort.
Proof.
  unfold check_prerequisites, required_tools, for_each, check_tool,
    run_command, subprocess_run, try_except, bind.
  run_all; first [left; reflexivity | right; reflexivity].
Qed.

(** X6.  [check_prerequisites] raises nothing but [Abort]: a lookup that
    cannot be started, or one interrupted from the keyboard, is reported
    as a missing tool like a lookup that fails. *)
Theorem check_prerequisites_raises_only_abort (w : world E) :
  res (check_prerequisites w) = Ok tt
  \/ res (check_prerequisites w) = Raise Abort.
Proof. apply check_prerequisites_result. Qed.

(** X7.  The command [check] always ends normally, and its last line is
    the verdict: the line that all prerequisites are installed when
    [check_prerequisites] ends normally, the line that the check failed
    when it raises [Abort]. *)
Theorem check_reports_and_returns (w : world E) :
  res (check w) = Ok tt
  /\ final (check w) = final (check_prerequisites w)
  /\ last (echoed (events (check w))) EmptyString
     = (if raises_abort (res (check_prerequisites w))
        then fail_mark ++ " Prerequisites check failed"
        else ok_mark ++ " All prerequisites are installed!").
Proof.
  pose proof (check_prerequisites_result w) as Hres.
  unfold check, try_except, bind, echo, invoke.
  destruct (check_prerequisites w) as [r w1 ev]. cbn [res final] in *.
  destruct Hres as [-> | ->];
    cbn [after res final events raises_abort app echoed];
    (split; [reflexivity|]); (split; [reflexivity|]);
    rewrite ?app_nil_r, echoed_app; cbn [echoed]; apply last_last.
Qed.

End ChecksMore.

(** The theorem on a host that lacks both [docker] and [helm]. *)
Lemma check_prerequisites_stops_at_first_missing_witness :
  let E := fixed_host [Argv ["which"; "docker"]; Argv ["which"; "helm"]]
             silent no_json in
  required_tools = (["kind"] ++ "docker" :: ["kubectl"; "helm"])%list
  /\ missing E "docker"
  /\ res (check_prerequisites (E := E) tt) = Raise Abort
  /\ reports (events (check_prerequisites (E := E) tt))
     = ["Error: docker is not installed or not in PATH"]
  /\ spawned (events (check_prerequisites (E := E) tt))
     = [Argv ["which"; "kind"]; Argv ["which"; "docker"]].
Proof.
  intros E.
  assert (Hm : missing E "docker") by (intros []; reflexivity).
  assert (Hb : forall t, In t ["kind"] -> resolves E t).
  { intros t [<-|[]] []. reflexivity. }
  split; [reflexivity|]. split; [exact Hm|].
  exact (check_prerequisites_stops_at_first_missing E ["kind"] "docker"
           ["kubectl"; "helm"] tt eq_refl Hb Hm).
Defined.

(** * Further properties of cleanup *)

Lemma prefix_append (a b : string) : String.prefix a (a ++ b) = true.
Proof.
  induction a as [|c a IH]; simpl; [destruct b; reflexivity|].
  destruct (ascii_dec c c) as [_|Hne]; [exact IH | contradiction Hne; reflexivity].
Qed.

(** [sub in s] holds of every [s] that has [sub] somewhere inside. *)
Lemma contains_inside (sub a b : string) :
  Py.contains sub (a ++ sub ++ b) = true.
Proof.
  unfold Py.contains. induction a as [|c a IH].
  - cbn [append]. destruct (sub ++ b) as [|c s] eqn:Hs.
    + destruct sub; [reflexivity | discriminate Hs].
    + cbn [String.index]. rewrite <- Hs, prefix_append. reflexivity.
  - cbn [append String.index].
    destruct (String.prefix sub (String c (a ++ sub ++ b))); [reflexivity|].
    destruct (String.index 0 sub (a ++ sub ++ b)); [reflexivity | exact IH].
Qed.

Section CleanupMore.

Variable E : Env.

Lemma delete_registry_leaves_cluster (w : world E) :
  issued (invocation_of "kind delete cluster --name kind" false)
    (events (delete_registry "kind-registry" w)) = false.
Proof.
  unfold delete_registry, stop_running_registry, loads, subscript,
    run_command, subprocess_run, try_except, bind.
  run_all; vm_compute; reflexivity.
Qed.

Lemma delete_cluster_issued (w w1 : world E) (out err : string) :
  spawn E (invocation_of "kind get clusters" false) w = (Exited 0 out err, w1) ->
  issued (invocation_of "kind delete cluster --name kind" false)
    (events (delete_cluster "kind" w)) = Py.contains "kind" out.
Proof.
  intros Hs.
  unfold delete_cluster, run_command, subprocess_run, try_except, bind.
  run. destruct (Py.contains "kind" out); run_all; vm_compute; reflexivity.
Qed.

(** X8.  The cluster is looked for as a piece of text in the listing:
    when the listing succeeds, [cleanup] executes
    [kind delete cluster --name kind] exactly when the text [kind]
    occurs somewhere in the listing's output, so also when the only
    cluster listed is one whose name merely has [kind] inside. *)
Theorem cleanup_deletes_on_text_match (w w1 : world E) (out err : string) :
  spawn E (invocation_of "kind get clusters" false) w = (Exited 0 out err, w1) ->
  issued (invocation_of "kind delete cluster --name kind" false)
    (events (cleanup w)) = Py.contains "kind" out
  /\ (forall a b : string,
        out = a ++ "kind" ++ b ->
        issued (invocation_of "kind delete cluster --name kind" false)
          (events (cleanup w)) = true).
Proof.
  intros Hs.
  assert (Heq : issued (invocation_of "kind delete cluster --name kind" false)
                  (events (cleanup w)) = Py.contains "kind" out).
  { rewrite cleanup_events.
    change (Invoke "cleanup" :: ?l) with ([Invoke "cleanup"] ++ l)%list.
    rewrite !issued_app, (delete_cluster_issued _ _ _ _ Hs).
    destruct (res (delete_cluster "kind" w)) as [[]|e].
    - rewrite issued_app, delete_registry_leaves_cluster.
      destruct (Py.contains "kind" out); reflexivity.
    - destruct (Py.contains "kind" out); reflexivity. }
  split; [exact Heq|].
  intros a b ->. rewrite Heq. apply contains_inside.
Qed.

(** X9.  [cleanup] ends normally exactly when the cluster listing exits
    with status zero and, in case its output shows the text [kind], the
    cluster deletion exits with status zero. *)
Theorem cleanup_ends_normally_iff (w : world E) :
  res (cleanup w) = Ok tt
  <-> exists (out err : string) (w1 : world E),
        spawn E (invocation_of "kind get clusters" false) w
          = (Exited 0 out err, w1)
        /\ (Py.contains "kind" out = true ->
            exit_ok (fst (spawn E
                            (invocation_of "kind delete cluster --name kind"
                               false) w1)) = true).
Proof.
  rewrite cleanup_res. split.
  - assert (Hblock :
      res (delete_cluster "kind" w) = Ok tt ->
      exists (out err : string) (w1 : world E),
        spawn E (invocation_of "kind get clusters" false) w
          = (Exited 0 out err, w1)
        /\ (Py.contains "kind" out = true ->
            exit_ok (fst (spawn E
                            (invocation_of "kind delete cluster --name kind"
                               false) w1)) = true)).
    { unfold delete_cluster, run_command, subprocess_run, try_except, bind.
      run_all; intros Hres; try discriminate Hres;
        repeat match goal with
               | H : (?rc =? 0)%Z = true |- _ => apply Z.eqb_eq in H; subst rc
               end;
        do 3 eexists; (split; [reflexivity|]); intros Hc;
        try congruence; cbn [fst exit_ok];
        repeat match goal with
               | H : _ = (_, _) |- _ => rewrite H
               end; cbn [fst exit_ok]; try reflexivity; try congruence. }
    destruct (res (delete_cluster "kind" w)) as [[]|e]; intros Hres;
      [apply Hblock; reflexivity | discriminate Hres].
  - intros (out & err & w1 & Hs & Hdel).
    rewrite (delete_cluster_ok _ _ _ _ _ Hs Hdel). reflexivity.
Qed.

(** The registry block, when the stop of the container fails. *)
Lemma delete_registry_failed_stop (w : world E) (p : proc_result) :
  In (Spawn (invocation_of "docker stop kind-registry" false) p)
     (events (delete_registry "kind-registry" w)) ->
  exit_ok p = false ->
  issued (invocation_of "docker rm kind-registry" false)
    (events (delete_registry "kind-registry" w)) = false.
Proof.
  unfold delete_registry, stop_running_registry, loads, subscript,
    run_command, subprocess_run, try_except, bind.
  run_all; intros Hin Hfail; vm_compute in Hin;
    repeat (destruct Hin as [Hin|Hin]);
    try contradiction; try discriminate Hin;
    injection Hin as <-; simpl in Hfail; try congruence;
    vm_compute; reflexivity.
Qed.

(** X10.  In a run of [cleanup] in which [docker stop kind-registry]
    fails, [docker rm kind-registry] is not executed, and the run still
    ends normally: the container is left behind without a word. *)
Theorem cleanup_failed_stop_skips_remove (w : world E) (p : proc_result) :
  In (Spawn (invocation_of "docker stop kind-registry" false) p)
     (events (cleanup w)) ->
  exit_ok p = false ->
  issued (invocation_of "docker rm kind-registry" false) (events (cleanup w))
    = false
  /\ res (cleanup w) = Ok tt.
Proof.
  intros Hin Hfail.
  destruct (delete_cluster_leaves_registry E w) as (_ & Hc2 & Hc3).
  rewrite cleanup_res. rewrite cleanup_events in Hin |- *.
  destruct Hin as [Hin|Hin]; [discriminate Hin|].
  apply in_app_or in Hin. destruct Hin as [Hin|Hin].
  { apply In_Spawn_issued in Hin. congruence. }
  destruct (res (delete_cluster "kind" w)) as [[]|e]; [|contradiction].
  apply in_app_or in Hin. destruct Hin as [Hin|[Hin|[]]]; [|discriminate Hin].
  pose proof (delete_registry_failed_stop _ _ Hin Hfail) as Hrm.
  change (Invoke "cleanup" :: ?a) with ([Invoke "cleanup"] ++ a)%list.
  rewrite !issued_app, Hc3, Hrm.
  split; vm_compute; reflexivity.
Qed.

(** The registry block stops the container only on a document that says
    it is running. *)
Lemma delete_registry_stops_only_running (w : world E) :
  issued (invocation_of "docker stop kind-registry" false)
    (events (delete_registry "kind-registry" w)) = true ->
  exists (out err : string) (v first state running : Py.value),
    In (Spawn (invocation_of "docker inspect kind-registry" false)
          (Exited 0 out err))
       (events (delete_registry "kind-registry" w))
    /\ json_loads E out = Some v
    /\ Py.getitem v (Py.KInt 0) = inl first
    /\ Py.getitem first (Py.KStr "State") = inl state
    /\ Py.getitem state (Py.KStr "Running") = inl running
    /\ Py.truthy running = true.
Proof.
  unfold delete_registry, stop_running_registry, loads, subscript,
    run_command, subprocess_run, try_except, bind.
  run_all; intros Hstop; vm_compute in Hstop; try discriminate Hstop;
    repeat match goal with
           | H : (?rc =? 0)%Z = true |- _ => apply Z.eqb_eq in H; subst rc
           end;
    do 6 eexists; (split; [left; reflexivity|]);
    repeat split; eassumption.
Qed.

(** X11.  [cleanup] executes [docker stop kind-registry] only in a run
    whose registry probe exited with status zero and printed a document
    that [json.loads] reads, whose item 0 has a [State] with a [Running]
    that counts as true.  A probe that fails, a text that is no JSON, an
    empty list, a missing key or a false [Running] all leave the
    container alone. *)
Theorem cleanup_stops_only_running (w : world E) :
  issued (invocation_of "docker stop kind-registry" false) (events (cleanup w))
    = true ->
  exists (out err : string) (v first state running : Py.value),
    In (Spawn (invocation_of "docker inspect kind-registry" false)
          (Exited 0 out err))
       (events (cleanup w))
    /\ json_loads E out = Some v
    /\ Py.getitem v (Py.KInt 0) = inl first
    /\ Py.getitem first (Py.KStr "State") = inl state
    /\ Py.getitem state (Py.KStr "Running") = inl running
    /\ Py.truthy running = true.
Proof.
  intros Hstop.
  destruct (delete_cluster_leaves_registry E w) as (_ & Hc2 & _).
  rewrite cleanup_events in Hstop |- *.
  change (Invoke "cleanup" :: ?a) with ([Invoke "cleanup"] ++ a)%list in Hstop.
  rewrite !issued_app, Hc2 in Hstop. cbn [issued spawned existsb orb] in Hstop.
  destruct (res (delete_cluster "kind" w)) as [[]|e];
    [|discriminate Hstop].
  rewrite issued_app in Hstop.
  replace (issued (invocation_of "docker stop kind-registry" false)
             [Echo (ok_mark ++ " Cleanup completed!")]) with false in Hstop
    by reflexivity.
  rewrite orb_false_r in Hstop.
  destruct (delete_registry_stops_only_running _ Hstop)
    as (out & err & v & first & state & running & Hin & Hrest).
  exists out, err, v, first, state, running. split; [|exact Hrest].
  right. apply in_or_app. right. apply in_or_app. left. exact Hin.
Qed.

End CleanupMore.

Lemma cleanup_deletes_on_text_match_witness :
  let w : world lab_host := mkLab ["kind-2"] NoContainer in
  spawn lab_host (invocation_of "kind get clusters" false) w
    = (Exited 0 ("kind-2" ++ Py.nl) EmptyString, w)
  /\ issued (invocation_of "kind delete cluster --name kind" false)
       (events (cleanup w)) = true.
Proof.
  intros w. split; [reflexivity|].
  destruct (cleanup_deletes_on_text_match lab_host w w ("kind-2" ++ Py.nl)
              EmptyString eq_refl) as [_ Hinside].
  exact (Hinside EmptyString ("-2" ++ Py.nl) eq_refl).
Defined.

Lemma cleanup_failed_stop_skips_remove_witness :
  let E := stuck_registry_host in
  let stop := Spawn (invocation_of "docker stop kind-registry" false)
                (Exited 1 EmptyString complaint) in
  In stop (events (cleanup (E := E) tt))
  /\ issued (invocation_of "docker rm kind-registry" false)
       (events (cleanup (E := E) tt)) = false
  /\ res (cleanup (E := E) tt) = Ok tt.
Proof.
  intros E stop.
  assert (Hin : In stop (events (cleanup (E := E) tt))).
  { vm_compute. tauto. }
  split; [exact Hin|].
  exact (cleanup_failed_stop_skips_remove E tt
           (Exited 1 EmptyString complaint) Hin eq_refl).
Defined.

Lemma cleanup_stops_only_running_witness :
  let w : world lab_host := mkLab [] Up in
  issued (invocation_of "docker stop kind-registry" false) (events (cleanup w))
    = true
  /\ exists (out err : string) (v first state running : Py.value),
       In (Spawn (invocation_of "docker inspect kind-registry" false)
             (Exited 0 out err))
          (events (cleanup w))
       /\ json_loads lab_host out = Some v
       /\ Py.getitem v (Py.KInt 0) = inl first
       /\ Py.getitem first (Py.KStr "State") = inl state
       /\ Py.getitem state (Py.KStr "Running") = inl running
       /\ Py.truthy running = true.
Proof.
  intros w.
  assert (Hstop : issued (invocation_of "docker stop kind-registry" false)
                    (events (cleanup w)) = true).
  { vm_compute. reflexivity. }
  split; [exact Hstop|].
  exact (cleanup_stops_only_running lab_host w Hstop).
Defined.

Section CleanupRunning.

Variable E : Env.

(** X12.  When the cluster block ends normally and the registry probe
    shows a running container, [cleanup] stops the container and then
    removes it: with both commands exiting with status zero, the
    registry block executes the probe, the stop and the remove, in this
    order, and [cleanup] ends normally in the world the remove leaves. *)
Theorem cleanup_removes_running_registry (w w1 w2 w3 : world E)
    (out err o2 e2 o3 e3 : string)
    (d : list (string * Py.value)) (rest : list Py.value)
    (st : list (string * Py.value)) :
  res (delete_cluster "kind" w) = Ok tt ->
  spawn E (invocation_of "docker inspect kind-registry" false)
    (final (delete_cluster "kind" w)) = (Exited 0 out err, w1) ->
  json_loads E out = Some (Py.VList (Py.VDict d :: rest)) ->
  Py.lookup "State" d = Some (Py.VDict st) ->
  Py.lookup "Running" st = Some (Py.VBool true) ->
  spawn E (invocation_of "docker stop kind-registry" false) w1
    = (Exited 0 o2 e2, w2) ->
  spawn E (invocation_of "docker rm kind-registry" false) w2
    = (Exited 0 o3 e3, w3) ->
  spawned (events (cleanup w))
  = (spawned (events (delete_cluster "kind" w))
     ++ [invocation_of "docker inspect kind-registry" false;
         invocation_of "docker stop kind-registry" false;
         invocation_of "docker rm kind-registry" false])%list
  /\ final (cleanup w) = w3
  /\ res (cleanup w) = Ok tt.
Proof.
  intros Hok Hs Hj Hstate Hrun Hstop Hrm.
  assert (Hblock :
    delete_registry "kind-registry" (final (delete_cluster "kind" w))
    = mkRun (Ok tt) w3
        [Spawn (invocation_of "docker inspect kind-registry" false)
           (Exited 0 out err);
         Echo "Deleting existing registry container 'kind-registry'...";
         Spawn (invocation_of "docker stop kind-registry" false)
           (Exited 0 o2 e2);
         Spawn (invocation_of "docker rm kind-registry" false)
           (Exited 0 o3 e3)]).
  { unfold delete_registry, stop_running_registry, loads, subscript,
      run_command, subprocess_run, try_except, bind.
    run. unfold Py.getitem, Py.truthy. run. reflexivity. }
  split; [|split].
  - rewrite cleanup_events, Hok, Hblock. cbn [spawned events].
    rewrite spawned_app. reflexivity.
  - unfold cleanup. cbv zeta. rewrite final_bind. cbn [invoke res final].
    rewrite final_bind, Hok, final_bind, Hblock. reflexivity.
  - rewrite cleanup_res, Hok. reflexivity.
Qed.

End CleanupRunning.

(** The theorem on the lab host with the cluster [kind] and a running
    registry: afterwards neither is there. *)
Lemma cleanup_removes_running_registry_witness :
  let w : world lab_host := mkLab ["kind"] Up in
  res (delete_cluster (E := lab_host) "kind" w) = Ok tt
  /\ spawned (events (cleanup w))
     = [invocation_of "kind get clusters" false;
        invocation_of "kind delete cluster --name kind" false;
        invocation_of "docker inspect kind-registry" false;
        invocation_of "docker stop kind-registry" false;
        invocation_of "docker rm kind-registry" false]
  /\ final (cleanup w) = mkLab [] NoContainer.
Proof.
  intros w.
  assert (Hok : res (delete_cluster (E := lab_host) "kind" w) = Ok tt).
  { vm_compute. reflexivity. }
  destruct (cleanup_removes_running_registry lab_host w
              (mkLab [] Up) (mkLab [] Stopped) (mkLab [] NoContainer)
              (inspect_doc true) EmptyString
              "kind-registry" EmptyString "kind-registry" EmptyString
              [("State", Py.VDict [("Running", Py.VBool true)])] []
              [("Running", Py.VBool true)]
              Hok eq_refl eq_refl eq_refl eq_refl eq_refl eq_refl)
    as (Hsp & Hfin & _).
  split; [exact Hok|]. split; [|exact Hfin].
  rewrite Hsp. vm_compute. reflexivity.
Defined.

(** * Further properties of the registry configuration *)

Section ConfigureRegistryMore.

Variable E : Env.

(** X13.  The loop of [configure_registry] over the nodes runs at least
    once: when [kind get nodes] succeeds and prints nothing but blanks,
    the listing is split into one empty name, and the first command of
    the loop is executed for a node without a name. *)
Theorem configure_registry_blank_listing (w w1 : world E) (out err : string) :
  spawn E (invocation_of "kind get nodes" false) w = (Exited 0 out err, w1) ->
  Py.strip out = EmptyString ->
  nth_error (spawned (events (configure_registry w))) 1
  = Some (invocation_of
            "docker exec  mkdir -p /etc/containerd/certs.d/localhost:5001"
            true).
Proof.
  intros Hs Hblank.
  unfold configure_registry, configure_node, connect_registry, open_write,
    run_command, subprocess_run, try_except, bind.
  run. rewrite Hblank. cbn [Py.split_on for_each]. unfold bind, ret.
  run_all; reflexivity.
Qed.

End ConfigureRegistryMore.

Lemma configure_registry_blank_listing_witness :
  spawn fair_host (invocation_of "kind get nodes" false) tt
    = (Exited 0 EmptyString EmptyString, tt)
  /\ Py.strip EmptyString = EmptyString
  /\ nth_error (spawned (events (configure_registry (E := fair_host) tt))) 1
     = Some (invocation_of
               "docker exec  mkdir -p /etc/containerd/certs.d/localhost:5001"
               true).
Proof.
  split; [reflexivity|]. split; [reflexivity|].
  exact (configure_registry_blank_listing fair_host tt tt EmptyString
           EmptyString eq_refl eq_refl).
Defined.

(** ** Reading a listing of node names *)

Lemma no_blank_not_line_feed (c : ascii) :
  Py.isspace c = false -> Ascii.eqb c (ascii_of_nat 10) = false.
Proof.
  intros Hc. destruct (Ascii.eqb c (ascii_of_nat 10)) eqn:Heq; [|reflexivity].
  apply Ascii.eqb_eq in Heq. subst c. discriminate Hc.
Qed.

Lemma rstrip_no_blank (word s : string) :
  no_blank word = true -> Py.rstrip (word ++ s) = word ++ Py.rstrip s.
Proof.
  induction word as [|c word IH]; intros Hw; [reflexivity|].
  simpl in Hw. apply andb_prop in Hw. destruct Hw as [Hc Hw].
  apply negb_true_iff in Hc. cbn [append Py.rstrip]. rewrite Hc, (IH Hw).
  reflexivity.
Qed.

Lemma split_on_no_blank (word s : string) :
  no_blank word = true ->
  Py.split_on (ascii_of_nat 10) (word ++ s)
  = match Py.split_on (ascii_of_nat 10) s with
    | h :: t => (word ++ h) :: t
    | [] => [word]
    end.
Proof.
  induction word as [|c word IH]; intros Hw.
  - cbn [append]. destruct (Py.split_on (ascii_of_nat 10) s) eqn:Hs;
      [|reflexivity].
    destruct s as [|c s]; cbn [Py.split_on] in Hs; [discriminate Hs|].
    destruct (Ascii.eqb c (ascii_of_nat 10)); [discriminate Hs|].
    destruct (Py.split_on (ascii_of_nat 10) s); discriminate Hs.
  - simpl in Hw. apply andb_prop in Hw. destruct Hw as [Hc Hw].
    apply negb_true_iff in Hc. apply no_blank_not_line_feed in Hc.
    cbn [append Py.split_on]. rewrite Hc, (IH Hw).
    destruct (Py.split_on (ascii_of_nat 10) s); reflexivity.
Qed.

Lemma word_not_empty (word s : string) :
  is_word word = true -> Py.is_empty (word ++ s) = false.
Proof.
  unfold is_word. intros Hw. apply andb_prop in Hw. destruct Hw as [Hne _].
  apply negb_true_iff in Hne. apply is_empty_append. exact Hne.
Qed.

Lemma word_no_blank (word : string) : is_word word = true -> no_blank word = true.
Proof.
  unfold is_word. intros Hw. apply andb_prop in Hw. apply Hw.
Qed.

Lemma lstrip_word (word s : string) :
  is_word word = true -> Py.lstrip (word ++ s) = word ++ s.
Proof.
  unfold is_word. intros Hw. apply andb_prop in Hw. destruct Hw as [Hne Hnb].
  destruct word as [|c word]; [discriminate Hne|].
  simpl in Hnb. apply andb_prop in Hnb. destruct Hnb as [Hc _].
  apply negb_true_iff in Hc. cbn [append Py.lstrip]. rewrite Hc. reflexivity.
Qed.

Lemma rstrip_unlines (names : list string) :
  forallb is_word names = true ->
  Py.rstrip (unlines names) = String.concat Py.nl names.
Proof.
  induction names as [|name names IH]; intros Hw; [reflexivity|].
  simpl in Hw. apply andb_prop in Hw. destruct Hw as [Hname Hrest].
  cbn [unlines]. rewrite (rstrip_no_blank _ _ (word_no_blank _ Hname)).
  change (Py.nl ++ unlines names)
    with (String (ascii_of_nat 10) (unlines names)).
  cbn [Py.rstrip]. rewrite (IH Hrest).
  change (Py.isspace (ascii_of_nat 10)) with true. cbn [andb].
  destruct names as [|next names].
  - cbn [String.concat Py.is_empty]. apply append_empty_r.
  - simpl in Hrest. apply andb_prop in Hrest. destruct Hrest as [Hnext _].
    change (String.concat Py.nl (name :: next :: names))
      with (name ++ Py.nl ++ String.concat Py.nl (next :: names)).
    assert (Hne : Py.is_empty (String.concat Py.nl (next :: names)) = false).
    { destruct names; cbn [String.concat];
        [rewrite <- (append_empty_r next)|]; apply word_not_empty; exact Hnext. }
    rewrite Hne. reflexivity.
Qed.

Lemma strip_unlines (names : list string) :
  forallb is_word names = true ->
  Py.strip (unlines names) = String.concat Py.nl names.
Proof.
  intros Hw. unfold Py.strip. destruct names as [|name names]; [reflexivity|].
  assert (Hname : is_word name = true).
  { simpl in Hw. apply andb_prop in Hw. apply Hw. }
  cbn [unlines]. rewrite (lstrip_word _ _ Hname).
  apply (rstrip_unlines (name :: names) Hw).
Qed.

Lemma split_on_lines (name : string) (names : list string) :
  forallb is_word (name :: names) = true ->
  Py.split_on (ascii_of_nat 10) (String.concat Py.nl (name :: names))
  = name :: names.
Proof.
  revert name. induction names as [|next names IH]; intros name Hw;
    simpl in Hw; apply andb_prop in Hw; destruct Hw as [Hname Hrest].
  - cbn [String.concat]. rewrite <- (append_empty_r name) at 1.
    rewrite (split_on_no_blank _ _ (word_no_blank _ Hname)).
    cbn [Py.split_on]. rewrite append_empty_r. reflexivity.
  - change (String.concat Py.nl (name :: next :: names))
      with (name ++ String (ascii_of_nat 10)
                      (String.concat Py.nl (next :: names))).
    rewrite (split_on_no_blank _ _ (word_no_blank _ Hname)).
    cbn [Py.split_on]. rewrite Ascii.eqb_refl, (IH next Hrest).
    rewrite append_empty_r. reflexivity.
Qed.

(** A listing of node names, one per line, is read back as those
    names. *)
Lemma nodes_of_listing (name : string) (names : list string) :
  forallb is_word (name :: names) = true ->
  Py.split_on (ascii_of_nat 10) (Py.strip (unlines (name :: names)))
  = name :: names.
Proof.
  intros Hw. rewrite (strip_unlines _ Hw). apply split_on_lines. exact Hw.
Qed.

Section ConfigureRegistryNodes.

Variable E : Env.

Hypothesis Hcommands : all_succeed E.
Hypothesis Hwrites : writes_succeed E.

Lemma configure_node_succeeds (node : string) (w : world E) :
  res (configure_node "kind-registry" "5001" node w) = Ok tt
  /\ spawned (events (configure_node "kind-registry" "5001" node w))
     = node_commands node.
Proof.
  unfold configure_node, run_command, subprocess_run, try_except, bind.
  simp. answer Hcommands Hwrites. run. answer Hcommands Hwrites. run.
  split; reflexivity.
Qed.

Lemma nodes_loop_succeeds (nodes : list string) (w : world E) :
  res (for_each nodes (configure_node "kind-registry" "5001") w) = Ok tt
  /\ spawned (events (for_each nodes (configure_node "kind-registry" "5001") w))
     = flat_map node_commands nodes.
Proof.
  revert w. induction nodes as [|node nodes IH]; intros w.
  - split; reflexivity.
  - cbn [for_each flat_map]. rewrite res_bind, events_bind, spawned_app.
    destruct (configure_node_succeeds node w) as [-> ->].
    destruct (IH (final (configure_node "kind-registry" "5001" node w)))
      as [-> ->].
    split; reflexivity.
Qed.

Lemma publish_registry_succeeds (w : world E) :
  res (publish_registry w) = Ok tt
  /\ spawned (events (publish_registry w))
     = [invocation_of "docker network connect kind kind-registry" true;
        invocation_of "kubectl apply -f registry-config.yaml" false].
Proof.
  unfold publish_registry, connect_registry, open_write, run_command,
    subprocess_run, try_except, bind.
  simp. answer Hcommands Hwrites. run. answer Hcommands Hwrites. run.
  answer Hcommands Hwrites. run. split; reflexivity.
Qed.


End ConfigureRegistryNodes.


(** * Further properties of the other steps *)

Section StepsMore.

Variable E : Env.

(** X15.  [create_cluster] writes the topology document before it runs
    [kind]: when the write fails, the [OSError] is raised as it is (it is
    no [Abort]) and no command is executed; when the write succeeds, the
    next thing done is [kind create cluster] on the file just written. *)
Theorem create_cluster_writes_first (w w1 : world E) (r : write_result) :
  write_file E "kind-config.yaml" cluster_config w = (r, w1) ->
  match r with
  | WriteError name msg =>
      create_cluster w
      = mkRun (Raise (PyError name msg)) w1
          [Invoke "create_cluster";
           Echo "Creating Kind cluster...";
           Write "kind-config.yaml" cluster_config (WriteError name msg)]
  | Written =>
      exists rest,
        events (create_cluster w)
        = ([Invoke "create_cluster";
            Echo "Creating Kind cluster...";
            Write "kind-config.yaml" cluster_config Written;
            Spawn
              (invocation_of "kind create cluster --config kind-config.yaml"
                 false)
              (fst (spawn E
                      (invocation_of
                         "kind create cluster --config kind-config.yaml" false)
                      w1))] ++ rest)%list
  end.
Proof.
  intros Hw. cbn in Hw.
  unfold create_cluster, open_write, run_command, subprocess_run, try_except,
    bind.
  destruct r as [|name msg]; run; [|reflexivity].
  run_all; eexists; cbn [fst app]; reflexivity.
Qed.


(** X17.  An interrupt from the keyboard ends [port_forward_argocd]
    normally, with the line that the forward has stopped; a non-zero
    exit status of [kubectl port-forward] aborts it. *)
Theorem port_forward_interrupt_is_normal (w w1 : world E) (p : proc_result) :
  spawn E
    (invocation_of "kubectl port-forward svc/argocd-server -n argocd 8080:443"
       true) w = (p, w1) ->
  match p with
  | Interrupted =>
      res (port_forward_argocd w) = Ok tt
      /\ last (echoed (events (port_forward_argocd w))) EmptyString
         = Py.nl ++ "Port forward stopped"
  | Exited rc _ _ =>
      res (port_forward_argocd w)
      = (if (rc =? 0)%Z then Ok tt else Raise Abort)
  | NotStarted name msg =>
      res (port_forward_argocd w) = Raise (PyError name msg)
  end.
Proof.
  intros Hs.
  unfold port_forward_argocd, run_command, subprocess_run, try_except, bind.
  run. destruct p as [rc out err|name msg|]; simp.
  - destruct (rc =? 0)%Z; reflexivity.
  - reflexivity.
  - split; reflexivity.
Qed.

(** X18.  [verify] passes no judgement on what is installed: it ends
    normally exactly when its two pod listings exit with status zero,
    whatever they print, an empty listing included. *)
Theorem verify_ends_normally_iff (w : world E) :
  res (verify w) = Ok tt
  <-> exists (o1 e1 o2 e2 : string) (w1 w2 : world E),
        spawn E
          (invocation_of "kubectl get pods -n kube-system -l k8s-app=cilium"
             false) w = (Exited 0 o1 e1, w1)
        /\ spawn E
             (invocation_of "kubectl get pods -n kube-system -l app=multus"
                false) w1 = (Exited 0 o2 e2, w2).
Proof.
  split.
  - unfold verify, run_command, subprocess_run, try_except, bind.
    run_all; intros Hres; try discriminate Hres;
      repeat match goal with
             | H : (?rc =? 0)%Z = true |- _ => apply Z.eqb_eq in H; subst rc
             end;
      do 6 eexists; split; [reflexivity | eassumption].
  - intros (o1 & e1 & o2 & e2 & w1 & w2 & H1 & H2).
    unfold verify, run_command, subprocess_run, try_except, bind.
    run. reflexivity.
Qed.


End StepsMore.

Lemma create_cluster_writes_first_witness :
  write_file read_only_host "kind-config.yaml" cluster_config tt
    = (WriteError "PermissionError" "[Errno 13] Permission denied", tt)
  /\ res (create_cluster (E := read_only_host) tt)
     = Raise (PyError "PermissionError" "[Errno 13] Permission denied")
  /\ spawned (events (create_cluster (E := read_only_host) tt)) = [].
Proof.
  split; [reflexivity|].
  rewrite (create_cluster_writes_first read_only_host tt tt _ eq_refl).
  split; reflexivity.
Defined.


Lemma port_forward_interrupt_is_normal_witness :
  spawn interrupting_host
    (invocation_of "kubectl port-forward svc/argocd-server -n argocd 8080:443"
       true) tt = (Interrupted, tt)
  /\ res (port_forward_argocd (E := interrupting_host) tt) = Ok tt
  /\ last (echoed (events (port_forward_argocd (E := interrupting_host) tt)))
       EmptyString
     = Py.nl ++ "Port forward stopped".
Proof.
  split; [reflexivity|].
  exact (port_forward_interrupt_is_normal interrupting_host tt tt Interrupted
           eq_refl).
Defined.

(** * Further properties of the pipeline *)

Section PipelineMore.

Variable E : Env.

(** One turn of the loop for a step that raises something else than
    [Abort]: the exception leaves the loop. *)
Lemma run_steps_cons_error (step_name : string) (command : M E unit)
    (rest : list (string * M E unit)) (w : world E) (e : exn) :
  res (command w) = Raise e ->
  raises_abort (Raise e : result unit) = false ->
  run_steps ((step_name, command) :: rest) w
  = mkRun (Raise e) (final (command w))
      (Echo (starting step_name) :: events (command w)).
Proof.
  intros Hres Hne. cbn [run_steps]. unfold bind, run_step, try_except, bind.
  cbn [echo]. destruct (command w) as [r w1 ev]. cbn [res final events] in *.
  subst r. destruct e; try discriminate Hne;
    cbn [after app]; rewrite ?app_nil_r; reflexivity.
Qed.

Lemma run_steps_never_abort (steps : list (string * M E unit)) (w : world E) :
  raises_abort (res (run_steps steps w)) = false.
Proof.
  revert w. induction steps as [|[step_name command] steps IH]; intros w.
  - reflexivity.
  - destruct (res (command w)) as [[]|e] eqn:Hres.
    + rewrite (run_steps_cons_ok _ _ _ _ _ Hres), res_after. apply IH.
    + destruct (raises_abort (Raise e : result unit)) eqn:Hab.
      * destruct e; try discriminate Hab.
        rewrite (run_steps_cons_abort _ _ _ _ _ Hres). reflexivity.
      * rewrite (run_steps_cons_error _ _ _ _ _ Hres Hab). exact Hab.
Qed.


(** The functions of the steps before a place in the list. *)
Lemma commands_split (before : list (string * M E unit)) (step_name : string)
    (command : M E unit) (rest : list (string * M E unit)) :
  commands = (before ++ (step_name, command) :: rest)%list ->
  exists tags tag,
    Forall2 (fun s t => forall w : world E, invoked (events (snd s w)) = [t])
      before tags
    /\ (forall w : world E, invoked (events (command w)) = [tag])
    /\ firstn (S (length before)) step_functions = (tags ++ [tag])%list.
Proof.
  intros Hsplit. pose proof (commands_invoke_themselves E) as Hall.
  rewrite Hsplit in Hall. apply Forall2_app_inv_l in Hall.
  destruct Hall as (tags & tl & Hbefore & Htl & Heq).
  inversion Htl as [|s tag rest' tags' Htag Hrest]; subst.
  exists tags, tag. split; [exact Hbefore|]. split; [exact Htag|].
  rewrite Heq. rewrite (Forall2_length Hbefore).
  change (tags ++ tag :: tags')%list with (tags ++ [tag] ++ tags')%list.
  rewrite app_assoc.
  replace (S (length tags)) with (length (tags ++ [tag]) + 0)
    by (rewrite length_app; simpl; rewrite Nat.add_0_r, Nat.add_comm; reflexivity).
  rewrite firstn_app_2. cbn [firstn]. apply app_nil_r.
Qed.


Lemma run_steps_error_escapes (before : list (string * M E unit))
    (tags : list string) (step_name : string) (command : M E unit)
    (rest : list (string * M E unit)) (e : exn) :
  Forall2 (fun s t => forall w : world E, invoked (events (snd s w)) = [t])
    before tags ->
  forall w : world E,
    steps_succeed before w ->
    res (command (world_after before w)) = Raise e ->
    raises_abort (Raise e : result unit) = false ->
    res (run_steps (before ++ (step_name, command) :: rest) w) = Raise e
    /\ invoked (events (run_steps (before ++ (step_name, command) :: rest) w))
       = (tags ++ invoked (events (command (world_after before w))))%list
    /\ exists earlier,
         events (run_steps (before ++ (step_name, command) :: rest) w)
         = (earlier
            ++ Echo (starting step_name)
               :: events (command (world_after before w)))%list.
Proof.
  induction 1 as [|[name0 command0] tag before tags Htag _ IH];
    intros w Hall Hres Hne.
  - cbn [app world_after] in *.
    rewrite (run_steps_cons_error _ _ _ _ _ Hres Hne).
    cbn [res events invoked].
    split; [reflexivity|]. split; [reflexivity|]. exists []. reflexivity.
  - destruct Hall as [Hok Hrest]. cbn [snd] in Htag.
    cbn [world_after] in Hres.
    destruct (IH _ Hrest Hres Hne) as (Hr & Hinv & earlier & Hev).
    cbn [app world_after].
    rewrite (run_steps_cons_ok _ _ _ _ _ Hok).
    rewrite res_after, events_after. split; [exact Hr|]. split.
    + cbn [app invoked]. rewrite invoked_app, Htag, Hinv. reflexivity.
    + exists (Echo (starting name0) :: events (command0 w) ++ earlier)%list.
      rewrite Hev. cbn [app]. rewrite app_assoc. reflexivity.
Qed.


(** In every run the loop enters the first few step functions of its
    list, in order. *)
Lemma run_steps_enters_in_order (steps : list (string * M E unit))
    (tags : list string) :
  Forall2 (fun s t => forall w : world E, invoked (events (snd s w)) = [t])
    steps tags ->
  forall w : world E,
    exists n : nat, invoked (events (run_steps steps w)) = firstn n tags.
Proof.
  induction 1 as [|[step_name command] tag steps tags Htag _ IH]; intros w.
  - exists 0. reflexivity.
  - cbn [snd] in Htag. destruct (res (command w)) as [[]|e] eqn:Hres.
    + destruct (IH (final (command w))) as [n Hn].
      exists (S n). rewrite (run_steps_cons_ok _ _ _ _ _ Hres), events_after.
      cbn [app invoked]. rewrite invoked_app, Htag, Hn. reflexivity.
    + exists 1. destruct (raises_abort (Raise e : result unit)) eqn:Hab.
      * destruct e; try discriminate Hab.
        rewrite (run_steps_cons_abort _ _ _ _ _ Hres).
        cbn [events invoked]. rewrite invoked_app, Htag. reflexivity.
      * rewrite (run_steps_cons_error _ _ _ _ _ Hres Hab).
        cbn [events invoked]. rewrite Htag. reflexivity.
Qed.


End PipelineMore.



Section InstallArgocdMore.

Variable E : Env.

(** X24.  [install_argocd] can end normally only on a cluster that has
    the namespace already: a run that ends normally is one whose
    namespace probe exited with status zero, and the commands it
    executed are the probe, the apply of the manifest, the rollout wait,
    the service patch and the retrieval of the secret, in this order. *)
Theorem install_argocd_needs_the_namespace (w : world E) :
  res (install_argocd w) = Ok tt ->
  exit_ok (fst (spawn E (invocation_of "kubectl get namespace argocd" false) w))
    = true
  /\ spawned (events (install_argocd w))
     = [invocation_of "kubectl get namespace argocd" false;
        invocation_of
          "kubectl apply -f https://raw.githubusercontent.com/argoproj/argo-cd/stable/manifests/install.yaml -n argocd"
          false;
        invocation_of
          "kubectl -n argocd rollout status deployment/argocd-server" false;
        invocation_of
          ("kubectl patch svc argocd-server -n argocd -p '"
           ++ patch_data_json ++ "'") true;
        invocation_of
          "kubectl -n argocd get secret argocd-initial-admin-secret -o jsonpath='{.data.password}' | base64 -d"
          true].
Proof.
  unfold install_argocd, create_namespace_if_not_exists, retrieve_password,
    run_command, subprocess_run, try_except, bind.
  run_all; intros Hres; try discriminate Hres;
    cbn [fst exit_ok]; split; first [assumption | reflexivity].
Qed.

End InstallArgocdMore.

Lemma install_argocd_needs_the_namespace_witness :
  res (install_argocd (E := fair_host) tt) = Ok tt
  /\ exit_ok (fst (spawn fair_host
                     (invocation_of "kubectl get namespace argocd" false) tt))
     = true
  /\ length (spawned (events (install_argocd (E := fair_host) tt))) = 5.
Proof.
  assert (Hres : res (install_argocd (E := fair_host) tt) = Ok tt)
    by (vm_compute; reflexivity).
  destruct (install_argocd_needs_the_namespace fair_host tt Hres)
    as (Hprobe & Hsp).
  split; [exact Hres|]. split; [exact Hprobe|].
  rewrite Hsp. reflexivity.
Defined.
